(** * ModShop cart page: nudges and checkout gating

    A shallow embedding of [src/app/cart/page.tsx].  The component's React
    state, the cart and identity contexts it reads, the browser's
    [localStorage] entry for orders and the calls made to collaborators are
    gathered in one record, [World]; every handler of the page becomes a
    function on worlds.

    Conventions.
    - A handler's closure reads the values of the render it was created in.
      Handlers take that render as the world they start from; [processCheckout],
      which is called from other handlers after they queued updates, takes the
      closure's render [snap] and the world being updated separately.
    - Handlers run to completion one at a time: the [await] in
      [handleCheckout] is not a scheduling point here, and the promises of
      the nudge service resolve.
    - JS numbers are modelled by [Z]: prices are amounts in cents and
      quantities are counts, on which [*] and [-] are exact.  The only use the
      page makes of a number as a condition is truthiness (non-zero).
    - Notification texts are template strings in the source; here a message
      is a constructor of [Message] carrying the values interpolated in it. *)

From Stdlib Require Import ZArith List String Bool Lia DecimalString.
From Stdlib Require Import Permutation.
Import ListNotations.
Local Open Scope Z_scope.
Local Open Scope string_scope.
Local Open Scope list_scope.

(** ** Data *)

Module Js.

(** [a || b] on strings: the empty string is falsy. *)
Definition or_str (a : option string) (b : string) : string :=
  match a with
  | Some s => if String.eqb s "" then b else s
  | None => b
  end.

(** Truthiness of an optional string, keeping the value when truthy. *)
Definition truthy_str (a : option string) : option string :=
  match a with
  | Some s => if String.eqb s "" then None else Some s
  | None => None
  end.

(** Truthiness of an optional number: [undefined] and [0] are falsy. *)
Definition truthy_num (a : option Z) : option Z :=
  match a with
  | Some n => if Z.eqb n 0 then None else Some n
  | None => None
  end.

(** Truthiness of an optional boolean. *)
Definition truthy_bool (a : option bool) : bool :=
  match a with
  | Some b => b
  | None => false
  end.

(** [n.toString()] for an integer. *)
Definition toString (n : Z) : string := NilZero.string_of_int (Z.to_int n).

End Js.

Record CartItem := {
  slug : string;
  title : string;
  price : Z;
  quantity : Z;
  image : string;
  category : string
}.

Record User := { email : string }.

Inductive NudgeType := gentle | alternative | block | none.

(** The payload of a nudge: every field is optional in the source
    ([currentNudge.data?.productTitle], [alternativeData.currentPrice!]...). *)
Record NudgeData := {
  productTitle : option string;
  currentProduct : option string;
  currentPrice : option Z;
  alternativeProduct : option string;
  alternativePrice : option Z;
  alternativeSlug : option string;
  alternativeImage : option string;
  alternativeCategory : option string;
  isAlreadyCheapest : option bool;
  duration : option Z
}.

Record NudgeResponse := {
  type : NudgeType;
  data : option NudgeData
}.

(** What [nudgeService.getCheaperAlternative] resolves to. *)
Record Alternative := {
  alt_name : string;
  alt_price : Z;
  alt_slug : string;
  alt_image : string;
  alt_category : string;
  alt_isAlreadyCheapest : bool
}.

(** The order object built by [processCheckout]. *)
Record Order := {
  id : string;
  order_items : list CartItem;
  order_total : Z;
  date : Z;
  userEmail : string
}.

Inductive NotificationType := success | warning.

(** The texts given to [setNotificationMessage], with their interpolated
    values.  [MsgSwitched] carries [None] for the amount when [currentPrice]
    is undefined (the subtraction is then NaN). *)
Inductive Message :=
| MsgEmpty
| MsgPleaseLogIn
| MsgOrderPlaced
| MsgSavedByRemoving (savedAmount : Z) (itemTitle : string)
| MsgSwitched (alternative : string) (saved : option Z).

(** Calls made to collaborators, in the order they are made. *)
Inductive Call :=
| TriggerNudge (its : list CartItem) (tot : Z)
| GetCheaperAlternative (it : CartItem)
| RecordNudgeInteraction (nudgeType : string) (accepted : bool)
| RemoveItem (s : string)
| AddItem (it : CartItem)
| ClearCart
| SetItem (orders : list Order).

(** What [localStorage.getItem("modshop_orders")] holds when it is not null:
    the JSON of a list of orders, or a text on which [JSON.parse] or
    [orders.push] throws. *)
Inductive Stored :=
| OrdersJson (orders : list Order)
| Malformed.

Record World := {
  (* useCart() *)
  items : list CartItem;
  (* useAuth() *)
  user : option User;
  (* useState *)
  checkoutAnimating : bool;
  showNotification : bool;
  notificationType : NotificationType;
  notificationMessage : Message;
  currentNudge : option NudgeResponse;
  canProceedWithCheckout : bool;
  (* localStorage: the entry of the orders, and whether setItem succeeds
     (it throws when the quota is exceeded or storage is disabled) *)
  modshop_orders : option Stored;
  storageWritable : bool;
  (* Date.now() *)
  now : Z;
  (* calls to collaborators so far *)
  trace : list Call
}.

(** The outcome of running a handler: it returns, or an exception leaves it.
    In both cases the world carries the updates made up to that point. *)
Inductive Outcome :=
| Returned (w : World)
| Thrown (w : World).

Definition world_of (o : Outcome) : World :=
  match o with
  | Returned w => w
  | Thrown w => w
  end.

Definition returned (o : Outcome) : bool :=
  match o with
  | Returned _ => true
  | Thrown _ => false
  end.

(** ** State updates *)

Definition setItems (v : list CartItem) (w : World) : World :=
  {| items := v; user := user w; checkoutAnimating := checkoutAnimating w;
     showNotification := showNotification w;
     notificationType := notificationType w;
     notificationMessage := notificationMessage w;
     currentNudge := currentNudge w;
     canProceedWithCheckout := canProceedWithCheckout w;
     modshop_orders := modshop_orders w; storageWritable := storageWritable w;
     now := now w; trace := trace w |}.

Definition setCheckoutAnimating (v : bool) (w : World) : World :=
  {| items := items w; user := user w; checkoutAnimating := v;
     showNotification := showNotification w;
     notificationType := notificationType w;
     notificationMessage := notificationMessage w;
     currentNudge := currentNudge w;
     canProceedWithCheckout := canProceedWithCheckout w;
     modshop_orders := modshop_orders w; storageWritable := storageWritable w;
     now := now w; trace := trace w |}.

Definition setShowNotification (v : bool) (w : World) : World :=
  {| items := items w; user := user w; checkoutAnimating := checkoutAnimating w;
     showNotification := v;
     notificationType := notificationType w;
     notificationMessage := notificationMessage w;
     currentNudge := currentNudge w;
     canProceedWithCheckout := canProceedWithCheckout w;
     modshop_orders := modshop_orders w; storageWritable := storageWritable w;
     now := now w; trace := trace w |}.

Definition setNotificationType (v : NotificationType) (w : World) : World :=
  {| items := items w; user := user w; checkoutAnimating := checkoutAnimating w;
     showNotification := showNotification w;
     notificationType := v;
     notificationMessage := notificationMessage w;
     currentNudge := currentNudge w;
     canProceedWithCheckout := canProceedWithCheckout w;
     modshop_orders := modshop_orders w; storageWritable := storageWritable w;
     now := now w; trace := trace w |}.

Definition setNotificationMessage (v : Message) (w : World) : World :=
  {| items := items w; user := user w; checkoutAnimating := checkoutAnimating w;
     showNotification := showNotification w;
     notificationType := notificationType w;
     notificationMessage := v;
     currentNudge := currentNudge w;
     canProceedWithCheckout := canProceedWithCheckout w;
     modshop_orders := modshop_orders w; storageWritable := storageWritable w;
     now := now w; trace := trace w |}.

Definition setCurrentNudge (v : option NudgeResponse) (w : World) : World :=
  {| items := items w; user := user w; checkoutAnimating := checkoutAnimating w;
     showNotification := showNotification w;
     notificationType := notificationType w;
     notificationMessage := notificationMessage w;
     currentNudge := v;
     canProceedWithCheckout := canProceedWithCheckout w;
     modshop_orders := modshop_orders w; storageWritable := storageWritable w;
     now := now w; trace := trace w |}.

Definition setCanProceedWithCheckout (v : bool) (w : World) : World :=
  {| items := items w; user := user w; checkoutAnimating := checkoutAnimating w;
     showNotification := showNotification w;
     notificationType := notificationType w;
     notificationMessage := notificationMessage w;
     currentNudge := currentNudge w;
     canProceedWithCheckout := v;
     modshop_orders := modshop_orders w; storageWritable := storageWritable w;
     now := now w; trace := trace w |}.

Definition setStored (v : option Stored) (w : World) : World :=
  {| items := items w; user := user w; checkoutAnimating := checkoutAnimating w;
     showNotification := showNotification w;
     notificationType := notificationType w;
     notificationMessage := notificationMessage w;
     currentNudge := currentNudge w;
     canProceedWithCheckout := canProceedWithCheckout w;
     modshop_orders := v; storageWritable := storageWritable w;
     now := now w; trace := trace w |}.

(** Appends a call to the trace. *)
Definition call (c : Call) (w : World) : World :=
  {| items := items w; user := user w; checkoutAnimating := checkoutAnimating w;
     showNotification := showNotification w;
     notificationType := notificationType w;
     notificationMessage := notificationMessage w;
     currentNudge := currentNudge w;
     canProceedWithCheckout := canProceedWithCheckout w;
     modshop_orders := modshop_orders w; storageWritable := storageWritable w;
     now := now w; trace := trace w ++ [c] |}.

Notation "w |> f" := (f w) (at level 45, left associativity, only parsing).

(** ** Collaborators *)

(** Modelled from the spec: the cart context ([useCart], whose source
    [context/CartContext] is not part of the page).  The spec gives
    [removeItem(slug)], [addItem(CartLine)] and [clearCart()] and requires
    that lines stay unique by [slug]: removing drops the lines of that slug,
    adding a line whose slug is already in the cart adds its quantity to the
    line that is there, adding a new slug appends the line.  Mutations are
    applied one after the other, each on the result of the previous one. *)
Module Cart.

Definition has_slug (s : string) (i : CartItem) : bool := String.eqb (slug i) s.

Definition remove (s : string) (l : list CartItem) : list CartItem :=
  filter (fun i => negb (has_slug s i)) l.

Definition merge (it i : CartItem) : CartItem :=
  if has_slug (slug it) i
  then {| slug := slug i; title := title i; price := price i;
          quantity := quantity i + quantity it;
          image := image i; category := category i |}
  else i.

Definition add (it : CartItem) (l : list CartItem) : list CartItem :=
  if existsb (has_slug (slug it)) l then map (merge it) l else l ++ [it].

Definition slugs (l : list CartItem) : list string := map slug l.

End Cart.

Definition removeItem (s : string) (w : World) : World :=
  w |> call (RemoveItem s) |> setItems (Cart.remove s (items w)).

Definition addItem (it : CartItem) (w : World) : World :=
  w |> call (AddItem it) |> setItems (Cart.add it (items w)).

Definition clearCart (w : World) : World :=
  w |> call ClearCart |> setItems [].

(** [stored ? JSON.parse(stored) : []]; [None] when it throws. *)
Definition parseOrders (stored : option Stored) : option (list Order) :=
  match stored with
  | None => Some []
  | Some (OrdersJson orders) => Some orders
  | Some Malformed => None
  end.

(** The nudge service, of which the page uses three functions.  What
    [triggerNudge] and [getCheaperAlternative] resolve to is left to the
    service; [recordNudgeInteraction] returns nothing and only shows in the
    trace. *)
Record NudgeService := {
  triggerNudge : list CartItem -> Z -> NudgeResponse;
  getCheaperAlternative : CartItem -> Alternative
}.

Definition is_none (t : NudgeType) : bool :=
  match t with
  | none => true
  | _ => false
  end.

(** ** The page *)

(** [items.reduce((sum, item) => sum + item.price * item.quantity, 0)] *)
Definition total (its : list CartItem) : Z :=
  fold_left (fun sum item => sum + price item * quantity item) its 0.

(** The order object of [processCheckout], from the closure's render [snap]
    at the time of the world [w]. *)
Definition buildOrder (snap w : World) : Order :=
  {| id := Js.toString (now w);
     order_items := items snap;
     order_total := total (items snap);
     date := now w;
     userEmail := Js.or_str (option_map email (user snap)) "" |}.

Definition processCheckout (snap w : World) : Outcome :=
  let w := w |> setCheckoutAnimating true in
  let order := buildOrder snap w in
  match parseOrders (modshop_orders w) with
  | None => Thrown w
  | Some orders =>
      let orders := orders ++ [order] in
      if storageWritable w then
        Returned
          (w |> call (SetItem orders)
             |> setStored (Some (OrdersJson orders))
             |> clearCart
             |> setNotificationType success
             |> setNotificationMessage MsgOrderPlaced
             |> setShowNotification true
             |> setCheckoutAnimating false
             |> setCanProceedWithCheckout false
             |> setCurrentNudge None)
      else Thrown (w |> call (SetItem orders))
  end.

Section Page.

Variable nudgeService : NudgeService.

Definition handleCheckout (w : World) : Outcome :=
  match user w with
  | None =>
      Returned
        (w |> setNotificationType warning
           |> setNotificationMessage MsgPleaseLogIn
           |> setShowNotification true)
  | Some _ =>
      if negb (canProceedWithCheckout w) then
        let nudgeResponse := triggerNudge nudgeService (items w) (total (items w)) in
        let w1 := w |> call (TriggerNudge (items w) (total (items w))) in
        if negb (is_none (type nudgeResponse))
        then Returned (w1 |> setCurrentNudge (Some nudgeResponse))
        else processCheckout w w1
      else processCheckout w w
  end.

(** The payload the accept handler works on:
    [nudgeType === 'alternative' && currentNudge?.data]. *)
Definition alternativeData (nudgeType : string) (w : World) : option NudgeData :=
  if String.eqb nudgeType "alternative"
  then match currentNudge w with
       | Some n => data n
       | None => None
       end
  else None.

(** The line added for the alternative product. *)
Definition alternativeLine (d : NudgeData) (originalItem : CartItem)
    (name : string) (p : Z) (w : World) : CartItem :=
  {| slug := Js.or_str (alternativeSlug d) ("alternative-" ++ Js.toString (now w));
     title := name;
     price := p;
     quantity := quantity originalItem;
     image := Js.or_str (alternativeImage d) "/images/products/placeholder.jpg";
     category := Js.or_str (alternativeCategory d)
                   (Js.or_str (Some (category originalItem)) "general") |}.

Definition handleNudgeAccept (nudgeType : string) (w : World) : World :=
  let w1 := w |> call (RecordNudgeInteraction nudgeType true) in
  match alternativeData nudgeType w with
  | Some d =>
      let originalItem := hd_error (items w) in
      if Js.truthy_bool (isAlreadyCheapest d) then
        match originalItem with
        | Some o =>
            let savedAmount := price o * quantity o in
            w1 |> removeItem (slug o)
               |> setNotificationType success
               |> setNotificationMessage (MsgSavedByRemoving savedAmount (title o))
               |> setShowNotification true
               |> setCurrentNudge None
        | None => w1 |> setCurrentNudge None
        end
      else
        match originalItem, Js.truthy_str (alternativeProduct d),
              Js.truthy_num (alternativePrice d) with
        | Some o, Some name, Some p =>
            w1 |> removeItem (slug o)
               |> addItem (alternativeLine d o name p w)
               |> setNotificationType success
               |> setNotificationMessage
                    (MsgSwitched name (option_map (fun c => c - p) (currentPrice d)))
               |> setShowNotification true
               |> setCurrentNudge None
        | _, _, _ => w1 |> setCurrentNudge None
        end
  | None => w1 |> setCurrentNudge None
  end.

Definition handleNudgeReject (nudgeType : string) (w : World) : Outcome :=
  let w1 := w |> call (RecordNudgeInteraction nudgeType false)
              |> setCurrentNudge None in
  if String.eqb nudgeType "gentle" || String.eqb nudgeType "block"
  then processCheckout w (w1 |> setCanProceedWithCheckout true)
  else Returned w1.

Definition handleBlockComplete (w : World) : World :=
  w |> call (RecordNudgeInteraction "block" true)
    |> setCurrentNudge None
    |> setCanProceedWithCheckout true.

Definition triggerGentleNudge (w : World) : World :=
  w |> setCurrentNudge
         (Some {| type := gentle;
                  data := Some {| productTitle :=
                                    Some (Js.or_str (option_map title (hd_error (items w)))
                                            "this item");
                                  currentProduct := None; currentPrice := None;
                                  alternativeProduct := None; alternativePrice := None;
                                  alternativeSlug := None; alternativeImage := None;
                                  alternativeCategory := None;
                                  isAlreadyCheapest := None; duration := None |} |}).

Definition triggerAlternativeNudge (w : World) : World :=
  match items w with
  | item0 :: _ =>
      let alt := getCheaperAlternative nudgeService item0 in
      w |> call (GetCheaperAlternative item0)
        |> setCurrentNudge
             (Some {| type := alternative;
                      data := Some {| productTitle := None;
                                      currentProduct := Some (title item0);
                                      currentPrice := Some (price item0);
                                      alternativeProduct := Some (alt_name alt);
                                      alternativePrice := Some (alt_price alt);
                                      alternativeSlug := Some (alt_slug alt);
                                      alternativeImage := Some (alt_image alt);
                                      alternativeCategory := Some (alt_category alt);
                                      isAlreadyCheapest := Some (alt_isAlreadyCheapest alt);
                                      duration := None |} |})
  | [] => w
  end.

Definition triggerBlockNudge (w : World) : World :=
  w |> setCurrentNudge
         (Some {| type := block;
                  data := Some {| productTitle := None;
                                  currentProduct := None; currentPrice := None;
                                  alternativeProduct := None; alternativePrice := None;
                                  alternativeSlug := None; alternativeImage := None;
                                  alternativeCategory := None;
                                  isAlreadyCheapest := None; duration := Some 15 |} |}).

End Page.


(** ** Observations *)

Definition isTriggerNudge (c : Call) : bool :=
  match c with
  | TriggerNudge _ _ => true
  | _ => false
  end.

Definition isCartCall (c : Call) : bool :=
  match c with
  | RemoveItem _ | AddItem _ | ClearCart => true
  | _ => false
  end.

(** How many times the nudge service was asked to evaluate the cart. *)
Definition nudgeEvaluations (w : World) : nat :=
  List.length (filter isTriggerNudge (trace w)).

(** The calls made between the world [w] and a later world [w']. *)
Definition callsSince (w w' : World) : list Call :=
  skipn (List.length (trace w)) (trace w').

(** The orders that can be read back from storage. *)
Definition persistedOrders (w : World) : list Order :=
  match parseOrders (modshop_orders w) with
  | Some orders => orders
  | None => []
  end.

(** A commit of the checkout requested in render [w] has happened in [w']:
    its order is the last one in storage and the cart is empty. *)
Definition commits (w w' : World) : Prop :=
  persistedOrders w' = persistedOrders w ++ [buildOrder w w] /\ items w' = [].

(** The notification shown to the user, if one is open. *)
Definition notification (w : World) : option (NotificationType * Message) :=
  if showNotification w then Some (notificationType w, notificationMessage w)
  else None.

Definition nudgeProductTitle (w : World) : option string :=
  match currentNudge w with
  | Some n => match data n with
              | Some d => productTitle d
              | None => None
              end
  | None => None
  end.

Definition nudgeTypeOf (w : World) : option NudgeType :=
  option_map type (currentNudge w).

(** What happens to a page between two renders of one checkout attempt: the
    cart context delivers new contents, or the user asks to check out. *)
Inductive Action :=
| CartChanged (its : list CartItem)
| CheckoutRequested.

Definition step (svc : NudgeService) (a : Action) (w : World) : World :=
  match a with
  | CartChanged its => setItems its w
  | CheckoutRequested => world_of (handleCheckout svc w)
  end.

Fixpoint run (svc : NudgeService) (acts : list Action) (w : World) : World :=
  match acts with
  | [] => w
  | a :: acts => run svc acts (step svc a w)
  end.

(** ** Sample data *)

Module Sample.

Definition lineA : CartItem :=
  {| slug := "a"; title := "Alpha"; price := 1000; quantity := 2;
     image := "/images/a.jpg"; category := "books" |}.

Definition lineX : CartItem :=
  {| slug := "x"; title := "Xenon lamp"; price := 5000; quantity := 3;
     image := "/images/x.jpg"; category := "lamps" |}.

Definition lineB : CartItem :=
  {| slug := "b"; title := "Beta"; price := 700; quantity := 1;
     image := "/images/b.jpg"; category := "books" |}.

Definition untitled : CartItem :=
  {| slug := "u"; title := ""; price := 300; quantity := 1;
     image := "/images/u.jpg"; category := "misc" |}.

Definition alice : User := {| email := "alice@example.org" |}.

(** A fresh page over the cart [its] for the visitor [u], in a browser whose
    storage holds [stored] and accepts writes or not. *)
Definition pageOver (stored : option Stored) (writable : bool)
    (its : list CartItem) (u : option User) : World :=
  {| items := its; user := u; checkoutAnimating := false;
     showNotification := false; notificationType := success;
     notificationMessage := MsgEmpty; currentNudge := None;
     canProceedWithCheckout := false;
     modshop_orders := stored; storageWritable := writable;
     now := 1700000000000; trace := [] |}.

(** The same with an empty, writable storage. *)
Definition page : list CartItem -> option User -> World := pageOver None true.

(** A service that never nudges and finds nothing cheaper. *)
Definition quiet : NudgeService :=
  {| triggerNudge := fun _ _ => {| type := none; data := None |};
     getCheaperAlternative := fun it =>
       {| alt_name := title it; alt_price := price it; alt_slug := slug it;
          alt_image := image it; alt_category := category it;
          alt_isAlreadyCheapest := true |} |}.

(** A service that asks for a block nudge on every evaluation. *)
Definition strict : NudgeService :=
  {| triggerNudge := fun _ _ =>
       {| type := block;
          data := Some {| productTitle := None; currentProduct := None;
                          currentPrice := None; alternativeProduct := None;
                          alternativePrice := None; alternativeSlug := None;
                          alternativeImage := None; alternativeCategory := None;
                          isAlreadyCheapest := None; duration := Some 15 |} |};
     getCheaperAlternative := getCheaperAlternative quiet |}.

(** The payload of an alternative nudge for [lineX]. *)
Definition cheaper (name : option string) (p : option Z) (cheapest : bool)
  : NudgeResponse :=
  {| type := alternative;
     data := Some {| productTitle := None;
                     currentProduct := Some "Xenon lamp";
                     currentPrice := Some 5000;
                     alternativeProduct := name;
                     alternativePrice := p;
                     alternativeSlug := Some "y";
                     alternativeImage := Some "/images/y.jpg";
                     alternativeCategory := Some "lamps";
                     isAlreadyCheapest := Some cheapest;
                     duration := None |} |}.

End Sample.

(** ** The rest of the page *)

(** [a || b] on numbers. *)
Definition or_num (a : option Z) (b : Z) : Z :=
  match Js.truthy_num a with
  | Some n => n
  | None => b
  end.

(** The effect on [checkoutAnimating]: while it is set a timeout is armed
    that clears it one second later; this is that timeout firing.  When the
    flag is not set there is no timeout to fire. *)
Definition checkoutAnimationTimeout (w : World) : World :=
  if checkoutAnimating w then w |> setCheckoutAnimating false else w.

(** [onCloseAction] of the notification pop-up. *)
Definition closeNotification (w : World) : World :=
  w |> setShowNotification false.

(** [currentNudge.data?.field] *)
Definition payload {A : Type} (field : NudgeData -> option A) (w : World)
  : option A :=
  match currentNudge w with
  | Some n => match data n with
              | Some d => field d
              | None => None
              end
  | None => None
  end.

(** The nudge component the page renders, with the props it is given. *)
Inductive NudgeView :=
| GentleNudge (shownTitle : string)
| CheaperAlternativeNudge (shownProduct : string) (shownPrice : Z)
    (offeredProduct : string) (offeredPrice : Z) (alreadyCheapest : bool)
| PurchaseBlockNudge (seconds : Z).

Definition nudgeView (w : World) : option NudgeView :=
  match nudgeTypeOf w with
  | Some gentle =>
      Some (GentleNudge (Js.or_str (payload productTitle w) "this item"))
  | Some alternative =>
      Some (CheaperAlternativeNudge
              (Js.or_str (payload currentProduct w) "Current item")
              (or_num (payload currentPrice w) 0)
              (Js.or_str (payload alternativeProduct w) "Basic Alternative")
              (or_num (payload alternativePrice w) 0)
              (Js.truthy_bool (payload isAlreadyCheapest w)))
  | Some block => Some (PurchaseBlockNudge (or_num (payload duration w) 60))
  | Some none | None => None
  end.

(** The callbacks a rendered nudge component is given. *)
Inductive NudgeEvent := OnAccept | OnReject | OnComplete.

(** The handler bound to a callback of the rendered nudge, run on the world;
    [None] when the rendered component has no such callback. *)
Definition nudgeEvent (e : NudgeEvent) (w : World) : option Outcome :=
  match nudgeTypeOf w, e with
  | Some gentle, OnAccept => Some (Returned (handleNudgeAccept "gentle" w))
  | Some gentle, OnReject => Some (handleNudgeReject "gentle" w)
  | Some alternative, OnAccept => Some (Returned (handleNudgeAccept "alternative" w))
  | Some alternative, OnReject => Some (handleNudgeReject "alternative" w)
  | Some block, OnComplete => Some (Returned (handleBlockComplete w))
  | _, _ => None
  end.

(** One thing happening to the page: one of its handlers runs (with any
    argument, whatever control it is bound to), the cart context delivers new
    contents, the notification is closed or the animation timeout fires. *)
Inductive Invocation :=
| Checkout
| Accept (nudgeType : string)
| Reject (nudgeType : string)
| BlockComplete
| GentleClicked
| AlternativeClicked
| BlockClicked
| CartDelivered (its : list CartItem)
| NotificationClosed
| AnimationTimeout.

Definition invoke (svc : NudgeService) (i : Invocation) (w : World) : World :=
  match i with
  | Checkout => world_of (handleCheckout svc w)
  | Accept t => handleNudgeAccept t w
  | Reject t => world_of (handleNudgeReject t w)
  | BlockComplete => handleBlockComplete w
  | GentleClicked => triggerGentleNudge w
  | AlternativeClicked => triggerAlternativeNudge svc w
  | BlockClicked => triggerBlockNudge w
  | CartDelivered its => setItems its w
  | NotificationClosed => closeNotification w
  | AnimationTimeout => checkoutAnimationTimeout w
  end.

Fixpoint invokeAll (svc : NudgeService) (steps : list Invocation) (w : World)
  : World :=
  match steps with
  | [] => w
  | i :: steps => invokeAll svc steps (invoke svc i w)
  end.

(** Whether an invocation is one of those that let a checkout through
    without the nudge service's consent: rejecting a gentle or a block nudge,
    or the completion of a block nudge. *)
Definition overrides (i : Invocation) : bool :=
  match i with
  | Reject t => String.eqb t "gentle" || String.eqb t "block"
  | BlockComplete => true
  | _ => false
  end.

(** A service that nudges on every evaluation. *)
Definition alwaysNudges (svc : NudgeService) : Prop :=
  forall its tot, is_none (type (triggerNudge svc its tot)) = false.

(** An order whose total is the total of its items. *)
Definition consistent (o : Order) : Prop :=
  order_total o = total (order_items o).

(** The current nudge, when there is one, is of a type the page renders. *)
Definition visibleNudge (w : World) : Prop :=
  forall n, currentNudge w = Some n -> is_none (type n) = false.

Definition isRecord (c : Call) : bool :=
  match c with
  | RecordNudgeInteraction _ _ => true
  | _ => false
  end.

(** Lines with a price that is not negative and a quantity of at least 1. *)
Definition wellFormed (i : CartItem) : Prop := 0 <= price i /\ 1 <= quantity i.

Module Fixture.

(** A service that offers [alt] for every item and never nudges. *)
Definition offering (alt : Alternative) : NudgeService :=
  {| triggerNudge := fun _ _ => {| type := none; data := None |};
     getCheaperAlternative := fun _ => alt |}.

Definition yttrium : Alternative :=
  {| alt_name := "Yttrium lamp"; alt_price := 3000; alt_slug := "y";
     alt_image := "/images/y.jpg"; alt_category := "lamps";
     alt_isAlreadyCheapest := false |}.

Definition itself : Alternative :=
  {| alt_name := "Xenon lamp"; alt_price := 5000; alt_slug := "x";
     alt_image := "/images/x.jpg"; alt_category := "lamps";
     alt_isAlreadyCheapest := true |}.

Definition order1 : Order :=
  {| id := "1699999999999"; order_items := [Sample.lineB]; order_total := 700;
     date := 1699999999999; userEmail := "alice@example.org" |}.

End Fixture.

(** ** Properties of the commit *)

Lemma processCheckout_returns (snap w : World) (stored : list Order) :
  parseOrders (modshop_orders w) = Some stored ->
  storageWritable w = true ->
  exists w',
    processCheckout snap w = Returned w' /\
    items w' = [] /\
    modshop_orders w' = Some (OrdersJson (stored ++ [buildOrder snap w])) /\
    notification w' = Some (success, MsgOrderPlaced) /\
    canProceedWithCheckout w' = false /\
    currentNudge w' = None /\
    trace w' = trace w ++ [SetItem (stored ++ [buildOrder snap w]); ClearCart].
Proof.
  intros Hparse Hwrite.
  unfold processCheckout; cbn.
  rewrite Hparse, Hwrite.
  eexists; split; [reflexivity | cbn].
  rewrite <- app_assoc.
  repeat split.
Qed.

Lemma processCheckout_throws (snap w : World) :
  parseOrders (modshop_orders w) = None \/ storageWritable w = false ->
  exists w',
    processCheckout snap w = Thrown w' /\
    items w' = items w /\
    modshop_orders w' = modshop_orders w /\
    showNotification w' = showNotification w /\
    notificationType w' = notificationType w /\
    notificationMessage w' = notificationMessage w /\
    canProceedWithCheckout w' = canProceedWithCheckout w /\
    currentNudge w' = currentNudge w.
Proof.
  intros Hfail.
  unfold processCheckout; cbn.
  destruct (parseOrders (modshop_orders w)) as [stored|] eqn:Hparse.
  - destruct Hfail as [Hnone | Hwrite]; [discriminate|].
    rewrite Hwrite. eexists; split; [reflexivity | cbn; repeat split].
  - eexists; split; [reflexivity | cbn; repeat split].
Qed.

(** [processCheckout] never asks for a nudge. *)
Lemma processCheckout_no_evaluation (snap w : World) :
  nudgeEvaluations (world_of (processCheckout snap w)) = nudgeEvaluations w.
Proof.
  unfold processCheckout, nudgeEvaluations; cbn.
  destruct (parseOrders (modshop_orders w)) as [stored|]; cbn; [|reflexivity].
  destruct (storageWritable w); cbn;
    rewrite ?filter_app; cbn; rewrite ?app_nil_r; reflexivity.
Qed.

(** [processCheckout] never leaves the override set when it was not. *)
Lemma processCheckout_flag (snap w : World) :
  canProceedWithCheckout w = false ->
  canProceedWithCheckout (world_of (processCheckout snap w)) = false.
Proof.
  intros Hflag. unfold processCheckout; cbn.
  destruct (parseOrders (modshop_orders w)) as [stored|]; cbn; [|assumption].
  destruct (storageWritable w); cbn; [reflexivity | assumption].
Qed.

(** ** Checkout requests *)

(** C7.  Without an authenticated identity, [handleCheckout] returns after
    raising the warning that asks the visitor to log in: nothing is written to
    order storage, no collaborator is called (in particular the nudge service
    is not asked to evaluate the cart), and the cart, the override
    [canProceedWithCheckout] and the current nudge are those of before. *)
Theorem handleCheckout_without_identity (svc : NudgeService) (w : World) :
  user w = None ->
  let o := handleCheckout svc w in
  let w' := world_of o in
  returned o = true /\
  notification w' = Some (warning, MsgPleaseLogIn) /\
  modshop_orders w' = modshop_orders w /\
  trace w' = trace w /\
  nudgeEvaluations w' = nudgeEvaluations w /\
  items w' = items w /\
  canProceedWithCheckout w' = canProceedWithCheckout w /\
  currentNudge w' = currentNudge w.
Proof.
  intros Huser. unfold handleCheckout. rewrite Huser. cbn.
  repeat split.
Qed.

(** Scenario A of the specification: cart [a] at 10 euros, twice, nobody
    logged in. *)
Lemma handleCheckout_without_identity_witness :
  let w := Sample.page [Sample.lineA] None in
  let o := handleCheckout Sample.strict w in
  total (items w) = 2000 /\
  returned o = true /\
  notification (world_of o) = Some (warning, MsgPleaseLogIn) /\
  modshop_orders (world_of o) = modshop_orders w /\
  trace (world_of o) = trace w /\
  nudgeEvaluations (world_of o) = nudgeEvaluations w /\
  items (world_of o) = items w /\
  canProceedWithCheckout (world_of o) = canProceedWithCheckout w /\
  currentNudge (world_of o) = currentNudge w.
Proof.
  split; [reflexivity|].
  apply (handleCheckout_without_identity Sample.strict
           (Sample.page [Sample.lineA] None)).
  reflexivity.
Defined.

(** With the override set, a checkout request goes straight to
    [processCheckout]. *)
Lemma handleCheckout_bypass (svc : NudgeService) (w : World) (u : User) :
  user w = Some u ->
  canProceedWithCheckout w = true ->
  handleCheckout svc w = processCheckout w w.
Proof.
  intros Huser Hflag. unfold handleCheckout. rewrite Huser, Hflag. reflexivity.
Qed.

(** A checkout request made with the override set asks for no nudge. *)
Lemma handleCheckout_no_evaluation (svc : NudgeService) (w : World) :
  canProceedWithCheckout w = true ->
  nudgeEvaluations (world_of (handleCheckout svc w)) = nudgeEvaluations w.
Proof.
  intros Hflag. unfold handleCheckout.
  destruct (user w) as [u|]; [|reflexivity].
  rewrite Hflag; cbn. apply processCheckout_no_evaluation.
Qed.

(** A checkout request never sets the override. *)
Lemma handleCheckout_flag (svc : NudgeService) (w : World) :
  canProceedWithCheckout w = false ->
  canProceedWithCheckout (world_of (handleCheckout svc w)) = false.
Proof.
  intros Hflag. unfold handleCheckout.
  destruct (user w) as [u|]; [|assumption].
  rewrite Hflag; cbn.
  destruct (is_none _); cbn; [|assumption].
  apply processCheckout_flag. assumption.
Qed.

Lemma run_flag (svc : NudgeService) (acts : list Action) :
  forall w, canProceedWithCheckout w = false ->
            canProceedWithCheckout (run svc acts w) = false.
Proof.
  induction acts as [|a acts IH]; intros w Hflag; [assumption|].
  cbn [run]. apply IH.
  destruct a as [its|]; cbn [step]; [assumption|].
  apply handleCheckout_flag; assumption.
Qed.

(** The number of evaluations never decreases along a run: a count that is
    the same at both ends was the same all along. *)
Lemma handleCheckout_evaluations_le (svc : NudgeService) (w : World) :
  (nudgeEvaluations w <= nudgeEvaluations (world_of (handleCheckout svc w)))%nat.
Proof.
  unfold handleCheckout.
  destruct (user w) as [u|]; [|apply Nat.le_refl].
  destruct (canProceedWithCheckout w); cbn.
  - rewrite processCheckout_no_evaluation. apply Nat.le_refl.
  - destruct (is_none _); cbn;
      rewrite ?processCheckout_no_evaluation;
      unfold nudgeEvaluations; cbn; rewrite filter_app, length_app; cbn; lia.
Qed.

Lemma run_evaluations_le (svc : NudgeService) (acts : list Action) :
  forall w, (nudgeEvaluations w <= nudgeEvaluations (run svc acts w))%nat.
Proof.
  induction acts as [|a acts IH]; intros w; [apply Nat.le_refl|].
  cbn [run]. eapply Nat.le_trans; [|apply IH].
  destruct a as [its|]; cbn [step]; [apply Nat.le_refl|].
  apply handleCheckout_evaluations_le.
Qed.

(** C3.  Once [canProceedWithCheckout] is set, whatever the cart becomes and
    however many times checkout is requested, as long as the override is
    still set a further checkout request finds the count of nudge evaluations
    where it was when the override was set: neither that request nor any of
    the earlier ones consulted [triggerNudge]. *)
Theorem canProceed_one_shot_override
    (svc : NudgeService) (acts : list Action) (w : World) :
  canProceedWithCheckout w = true ->
  canProceedWithCheckout (run svc acts w) = true ->
  nudgeEvaluations (run svc acts w) = nudgeEvaluations w /\
  nudgeEvaluations (world_of (handleCheckout svc (run svc acts w)))
  = nudgeEvaluations w.
Proof.
  revert w.
  induction acts as [|a acts IH]; intros w Hflag Hend.
  - cbn [run] in *. split; [reflexivity|].
    apply handleCheckout_no_evaluation; assumption.
  - cbn [run] in *.
    destruct (canProceedWithCheckout (step svc a w)) eqn:Hstep.
    + assert (Hsame : nudgeEvaluations (step svc a w) = nudgeEvaluations w).
      { destruct a as [its|]; cbn [step]; [reflexivity|].
        apply handleCheckout_no_evaluation; assumption. }
      rewrite <- Hsame. apply IH; assumption.
    + rewrite (run_flag svc acts _ Hstep) in Hend. discriminate.
Qed.

Lemma canProceed_one_shot_override_witness :
  let w := handleBlockComplete
             (Sample.pageOver None false [Sample.lineA] (Some Sample.alice)) in
  let acts := [CartChanged [Sample.lineA; Sample.lineB]; CheckoutRequested;
               CartChanged [Sample.lineX]] in
  nudgeEvaluations (run Sample.strict acts w) = nudgeEvaluations w /\
  nudgeEvaluations (world_of (handleCheckout Sample.strict (run Sample.strict acts w)))
  = nudgeEvaluations w.
Proof.
  apply (canProceed_one_shot_override Sample.strict
           [CartChanged [Sample.lineA; Sample.lineB]; CheckoutRequested;
            CartChanged [Sample.lineX]]
           (handleBlockComplete
              (Sample.pageOver None false [Sample.lineA] (Some Sample.alice))));
    reflexivity.
Defined.

(** ** The commit *)

(** C2, as the specification states it, fails: when the order cannot be
    written ([localStorage.setItem] throws), the exception leaves
    [handleCheckout]; the cart is kept and nothing is stored, but no
    notification is raised either. *)
Lemma checkout_storage_failure_is_silent :
  let w := Sample.pageOver None false [Sample.lineA] (Some Sample.alice) in
  let o := handleCheckout Sample.quiet w in
  returned o = false /\
  persistedOrders (world_of o) = [] /\
  items (world_of o) = [Sample.lineA] /\
  notification (world_of o) = None.
Proof. cbn. repeat split. Qed.

(** C2, amended.  [processCheckout] either returns, and then the order is
    the last one in storage, the cart is empty and the success notification
    is up; or it throws, which happens exactly when the stored orders cannot
    be read or the write is refused, and then storage, the cart and the
    notification are what they were: the order is not recorded, the cart is
    not cleared and no message is raised. *)
Theorem processCheckout_all_or_nothing (snap w : World) :
  match processCheckout snap w with
  | Returned w' =>
      (exists stored, parseOrders (modshop_orders w) = Some stored) /\
      storageWritable w = true /\
      persistedOrders w' = persistedOrders w ++ [buildOrder snap w] /\
      items w' = [] /\
      notification w' = Some (success, MsgOrderPlaced)
  | Thrown w' =>
      (parseOrders (modshop_orders w) = None \/ storageWritable w = false) /\
      modshop_orders w' = modshop_orders w /\
      items w' = items w /\
      notification w' = notification w
  end.
Proof.
  unfold processCheckout, persistedOrders, notification; cbn.
  destruct (parseOrders (modshop_orders w)) as [stored|] eqn:Hparse; cbn.
  - destruct (storageWritable w) eqn:Hwrite; cbn.
    + repeat split. exists stored; reflexivity.
    + repeat split. right; reflexivity.
  - repeat split. left; reflexivity.
Qed.

(** ** Completion of a block nudge *)

(** C1, as the specification states it, fails: when the countdown of a block
    nudge completes, the override is set but no commit takes place; the cart
    is still there and no order has been stored. *)
Lemma handleBlockComplete_does_not_commit :
  let w := triggerBlockNudge (Sample.page [Sample.lineA] (Some Sample.alice)) in
  let w' := handleBlockComplete w in
  canProceedWithCheckout w' = true /\
  persistedOrders w' = [] /\
  items w' = [Sample.lineA] /\
  ~ commits w w'.
Proof.
  cbn. repeat split.
  intros [Horders _]. cbn in Horders. discriminate.
Qed.

(** C1, amended.  The completion callback records the interaction, clears
    the nudge and sets [canProceedWithCheckout]; it touches neither the cart
    nor order storage and asks for no evaluation.  The commit comes with the
    next checkout request: for a logged-in user whose storage can be read and
    written, that request returns having committed, with no nudge
    evaluation. *)
Theorem handleBlockComplete_arms_bypass (svc : NudgeService) (w : World) :
  let w' := handleBlockComplete w in
  canProceedWithCheckout w' = true /\
  currentNudge w' = None /\
  items w' = items w /\
  modshop_orders w' = modshop_orders w /\
  trace w' = trace w ++ [RecordNudgeInteraction "block" true] /\
  (forall u stored,
      user w = Some u ->
      parseOrders (modshop_orders w) = Some stored ->
      storageWritable w = true ->
      let o := handleCheckout svc w' in
      returned o = true /\
      commits w' (world_of o) /\
      canProceedWithCheckout (world_of o) = false /\
      nudgeEvaluations (world_of o) = nudgeEvaluations w).
Proof.
  cbn zeta. repeat (split; [reflexivity|]).
  intros u stored Huser Hparse Hwrite.
  pose proof (processCheckout_no_evaluation (handleBlockComplete w) (handleBlockComplete w))
    as Hcount.
  rewrite (handleCheckout_bypass svc _ u) by (cbn; first [assumption | reflexivity]).
  destruct (processCheckout_returns (handleBlockComplete w) (handleBlockComplete w) stored)
    as (w2 & Heq & Hitems & Hstored & _ & Hflag & _); [cbn; assumption .. |].
  rewrite Heq in *. cbn [world_of returned] in *.
  repeat split; try assumption.
  - unfold persistedOrders. rewrite Hstored. cbn. rewrite Hparse. reflexivity.
  - rewrite Hcount. unfold nudgeEvaluations; cbn.
    rewrite filter_app; cbn. rewrite app_nil_r. reflexivity.
Qed.

(** Scenario C of the specification, with a service that would ask for a
    block nudge again if it were consulted. *)
Lemma handleBlockComplete_arms_bypass_witness :
  let w := triggerBlockNudge (Sample.page [Sample.lineA] (Some Sample.alice)) in
  let o := handleCheckout Sample.strict (handleBlockComplete w) in
  returned o = true /\
  commits (handleBlockComplete w) (world_of o) /\
  canProceedWithCheckout (world_of o) = false /\
  nudgeEvaluations (world_of o) = nudgeEvaluations w.
Proof.
  exact (proj2 (proj2 (proj2 (proj2 (proj2
           (handleBlockComplete_arms_bypass Sample.strict
              (triggerBlockNudge (Sample.page [Sample.lineA] (Some Sample.alice))))))))
           Sample.alice [] eq_refl eq_refl eq_refl).
Defined.

(** ** Rejecting a nudge *)

(** C6.  Rejecting a gentle or a block nudge records the rejection, clears
    the nudge, sets [canProceedWithCheckout] and runs [processCheckout] from
    there; when storage can be read and written the handler returns having
    committed the cart of the render, without a nudge evaluation.  Rejecting
    an alternative nudge only records the rejection and clears the nudge: the
    override, the cart and storage are left as they were. *)
Theorem handleNudgeReject_proceeds_or_dismisses (t : string) (w : World) :
  let dismissed :=
    w |> call (RecordNudgeInteraction t false) |> setCurrentNudge None in
  (t = "gentle" \/ t = "block" ->
   handleNudgeReject t w
   = processCheckout w (dismissed |> setCanProceedWithCheckout true) /\
   forall stored,
     parseOrders (modshop_orders w) = Some stored ->
     storageWritable w = true ->
     returned (handleNudgeReject t w) = true /\
     commits w (world_of (handleNudgeReject t w)) /\
     nudgeEvaluations (world_of (handleNudgeReject t w)) = nudgeEvaluations w) /\
  (t = "alternative" ->
   handleNudgeReject t w = Returned dismissed /\
   canProceedWithCheckout (world_of (handleNudgeReject t w))
   = canProceedWithCheckout w /\
   items (world_of (handleNudgeReject t w)) = items w /\
   modshop_orders (world_of (handleNudgeReject t w)) = modshop_orders w).
Proof.
  cbn zeta. split.
  - intros Ht.
    assert (Heq : handleNudgeReject t w
                  = processCheckout w
                      (w |> call (RecordNudgeInteraction t false)
                         |> setCurrentNudge None
                         |> setCanProceedWithCheckout true)).
    { unfold handleNudgeReject. destruct Ht as [-> | ->]; reflexivity. }
    split; [exact Heq|].
    intros stored Hparse Hwrite. rewrite Heq.
    rewrite processCheckout_no_evaluation.
    destruct (processCheckout_returns w
                (w |> call (RecordNudgeInteraction t false)
                   |> setCurrentNudge None
                   |> setCanProceedWithCheckout true) stored)
      as (w2 & Hret & Hitems & Hstored & _); [cbn; assumption .. |].
    rewrite Hret. cbn [world_of returned].
    repeat split; try assumption.
    + unfold persistedOrders. rewrite Hstored, Hparse. reflexivity.
    + unfold nudgeEvaluations; cbn. rewrite filter_app; cbn.
      rewrite app_nil_r. reflexivity.
  - intros ->. repeat split.
Qed.

Lemma handleNudgeReject_proceeds_or_dismisses_witness :
  let gentleOpen := triggerGentleNudge (Sample.page [Sample.lineA] (Some Sample.alice)) in
  let cheaperOpen :=
    setCurrentNudge (Some (Sample.cheaper (Some "Yttrium lamp") (Some 3000) false))
      (Sample.page [Sample.lineX] (Some Sample.alice)) in
  (returned (handleNudgeReject "gentle" gentleOpen) = true /\
   commits gentleOpen (world_of (handleNudgeReject "gentle" gentleOpen)) /\
   nudgeEvaluations (world_of (handleNudgeReject "gentle" gentleOpen))
   = nudgeEvaluations gentleOpen) /\
  items (world_of (handleNudgeReject "alternative" cheaperOpen)) = [Sample.lineX].
Proof.
  split.
  - exact (proj2 (proj1 (handleNudgeReject_proceeds_or_dismisses "gentle"
                           (triggerGentleNudge
                              (Sample.page [Sample.lineA] (Some Sample.alice))))
                        (or_introl eq_refl))
             [] eq_refl eq_refl).
  - exact (proj1 (proj2 (proj2 (proj2 (handleNudgeReject_proceeds_or_dismisses "alternative"
             (setCurrentNudge (Some (Sample.cheaper (Some "Yttrium lamp") (Some 3000) false))
                (Sample.page [Sample.lineX] (Some Sample.alice)))) eq_refl)))).
Defined.

(** ** Building a gentle nudge *)

(** C8, as the specification states it, fails on a first line whose title is
    the empty string: the payload is then the placeholder, not the title. *)
Lemma triggerGentleNudge_empty_title :
  let w := Sample.page [Sample.untitled; Sample.lineA] (Some Sample.alice) in
  nudgeProductTitle (triggerGentleNudge w) = Some "this item" /\
  nudgeProductTitle (triggerGentleNudge w) <> Some (title Sample.untitled).
Proof. cbn. split; [reflexivity | discriminate]. Qed.

(** C8, amended.  [triggerGentleNudge] always produces a nudge of type
    [gentle], and changes nothing else than the current nudge.  Its payload
    is the title of the first line when that title is not empty, and the
    placeholder ["this item"] when the cart is empty or the first title is
    the empty string. *)
Theorem triggerGentleNudge_total (w : World) :
  let w' := triggerGentleNudge w in
  nudgeTypeOf w' = Some gentle /\
  w' = setCurrentNudge (currentNudge w') w /\
  (forall x rest, items w = x :: rest -> title x <> "" ->
                  nudgeProductTitle w' = Some (title x)) /\
  (forall x rest, items w = x :: rest -> title x = "" ->
                  nudgeProductTitle w' = Some "this item") /\
  (items w = [] -> nudgeProductTitle w' = Some "this item").
Proof.
  cbn zeta. unfold triggerGentleNudge, nudgeProductTitle; cbn.
  repeat split.
  - intros x rest Hitems Htitle. rewrite Hitems; cbn.
    apply String.eqb_neq in Htitle. rewrite Htitle. reflexivity.
  - intros x rest Hitems Htitle. rewrite Hitems; cbn.
    rewrite Htitle. reflexivity.
  - intros Hitems. rewrite Hitems. reflexivity.
Qed.

Lemma triggerGentleNudge_total_witness :
  nudgeProductTitle (triggerGentleNudge (Sample.page [Sample.lineA; Sample.lineB] None))
  = Some "Alpha" /\
  nudgeProductTitle (triggerGentleNudge (Sample.page [Sample.untitled] None))
  = Some "this item" /\
  nudgeProductTitle (triggerGentleNudge (Sample.page [] None)) = Some "this item".
Proof.
  split; [|split].
  - apply (proj1 (proj2 (proj2
             (triggerGentleNudge_total (Sample.page [Sample.lineA; Sample.lineB] None))))
             Sample.lineA [Sample.lineB] eq_refl).
    discriminate.
  - exact (proj1 (proj2 (proj2 (proj2
             (triggerGentleNudge_total (Sample.page [Sample.untitled] None)))))
             Sample.untitled [] eq_refl eq_refl).
  - exact (proj2 (proj2 (proj2 (proj2
             (triggerGentleNudge_total (Sample.page [] None))))) eq_refl).
Defined.

(** ** The cart *)

Module CartFacts.

Lemma remove_absent (s : string) (l : list CartItem) :
  ~ In s (Cart.slugs l) -> Cart.remove s l = l.
Proof.
  induction l as [|i l IH]; intros Habsent; [reflexivity|].
  cbn in *. unfold Cart.has_slug at 1.
  destruct (String.eqb_spec (slug i) s) as [Heq | Hneq]; cbn.
  - exfalso. apply Habsent. left. exact Heq.
  - f_equal. apply IH. intros Hin. apply Habsent. right. exact Hin.
Qed.

(** In a cart whose slugs are unique, removing the slug of the first line
    removes that line and no other. *)
Lemma remove_head (x : CartItem) (rest : list CartItem) :
  NoDup (Cart.slugs (x :: rest)) -> Cart.remove (slug x) (x :: rest) = rest.
Proof.
  intros Hnodup. inversion Hnodup as [|s l Hnotin Hrest]; subst.
  cbn. unfold Cart.has_slug at 1. rewrite String.eqb_refl; cbn.
  apply remove_absent. exact Hnotin.
Qed.

Lemma in_remove (s : string) (l : list CartItem) (i : CartItem) :
  In i (Cart.remove s l) <-> In i l /\ slug i <> s.
Proof.
  unfold Cart.remove. rewrite filter_In. unfold Cart.has_slug.
  destruct (String.eqb_spec (slug i) s) as [Heq | Hneq]; cbn; intuition congruence.
Qed.

Lemma remove_keeps_absent (s t : string) (l : list CartItem) :
  ~ In t (Cart.slugs l) -> ~ In t (Cart.slugs (Cart.remove s l)).
Proof.
  unfold Cart.slugs. rewrite !in_map_iff.
  intros Habsent (i & Hslug & Hin). apply Habsent.
  exists i. split; [exact Hslug|]. apply in_remove in Hin. tauto.
Qed.

Lemma existsb_absent (s : string) (l : list CartItem) :
  ~ In s (Cart.slugs l) -> existsb (Cart.has_slug s) l = false.
Proof.
  intros Habsent.
  destruct (existsb (Cart.has_slug s) l) eqn:Hex; [|reflexivity].
  apply existsb_exists in Hex. destruct Hex as (i & Hin & Hslug).
  exfalso. apply Habsent. unfold Cart.has_slug in Hslug.
  apply String.eqb_eq in Hslug. subst s.
  unfold Cart.slugs. apply in_map. exact Hin.
Qed.

(** Adding a line whose slug is not in the cart appends it. *)
Lemma add_fresh (it : CartItem) (l : list CartItem) :
  ~ In (slug it) (Cart.slugs l) -> Cart.add it l = l ++ [it].
Proof.
  intros Habsent. unfold Cart.add.
  rewrite (existsb_absent _ _ Habsent). reflexivity.
Qed.

Lemma filter_absent (s : string) (l : list CartItem) :
  ~ In s (Cart.slugs l) -> filter (Cart.has_slug s) l = [].
Proof.
  induction l as [|i l IH]; intros Habsent; [reflexivity|].
  cbn in *. unfold Cart.has_slug at 1.
  destruct (String.eqb_spec (slug i) s) as [Heq | Hneq].
  - exfalso. apply Habsent. left. exact Heq.
  - apply IH. intros Hin. apply Habsent. right. exact Hin.
Qed.

(** The cart operations keep slugs unique. *)
Lemma remove_NoDup (s : string) (l : list CartItem) :
  NoDup (Cart.slugs l) -> NoDup (Cart.slugs (Cart.remove s l)).
Proof.
  induction l as [|i l IH]; intros Hnodup; [constructor|].
  inversion Hnodup as [|s' l' Hnotin Hrest]; subst.
  cbn. destruct (negb (Cart.has_slug s i)); cbn.
  - constructor; [|apply IH; exact Hrest].
    apply remove_keeps_absent. exact Hnotin.
  - apply IH. exact Hrest.
Qed.

Lemma merge_slug (it i : CartItem) : slug (Cart.merge it i) = slug i.
Proof. unfold Cart.merge. destruct (Cart.has_slug (slug it) i); reflexivity. Qed.

Lemma add_NoDup (it : CartItem) (l : list CartItem) :
  NoDup (Cart.slugs l) -> NoDup (Cart.slugs (Cart.add it l)).
Proof.
  intros Hnodup. unfold Cart.add.
  destruct (existsb (Cart.has_slug (slug it)) l) eqn:Hex.
  - unfold Cart.slugs in *. rewrite map_map.
    rewrite (map_ext _ slug (merge_slug it)). exact Hnodup.
  - unfold Cart.slugs in *. rewrite map_app; cbn.
    apply NoDup_app; [exact Hnodup | repeat constructor; intros [] | ].
    intros s Hin [Heq | []]. subst s.
    apply in_map_iff in Hin. destruct Hin as (i & Hslug & Hin).
    assert (Htrue : existsb (Cart.has_slug (slug it)) l = true).
    { apply existsb_exists. exists i. split; [exact Hin|].
      unfold Cart.has_slug. apply String.eqb_eq. exact Hslug. }
    congruence.
Qed.

End CartFacts.

(** ** Accepting a nudge *)

Lemma skipn_length_app {A : Type} (l l' : list A) :
  skipn (List.length l) (l ++ l') = l'.
Proof. induction l as [|a l IH]; [reflexivity | exact IH]. Qed.

(** When the accept handler finds nothing to act on, it records the
    interaction and clears the nudge. *)
Lemma handleNudgeAccept_dismisses (t : string) (w : World) (d : NudgeData) :
  alternativeData t w = Some d ->
  Js.truthy_bool (isAlreadyCheapest d) = false ->
  hd_error (items w) = None \/
  Js.truthy_str (alternativeProduct d) = None \/
  Js.truthy_num (alternativePrice d) = None ->
  handleNudgeAccept t w
  = w |> call (RecordNudgeInteraction t true) |> setCurrentNudge None.
Proof.
  intros Hdata Hcheapest Hmissing.
  unfold handleNudgeAccept. rewrite Hdata, Hcheapest.
  destruct (hd_error (items w)) as [o|]; [|reflexivity].
  destruct (Js.truthy_str (alternativeProduct d)) as [name|]; [|reflexivity].
  destruct (Js.truthy_num (alternativePrice d)) as [p|]; [|reflexivity].
  destruct Hmissing as [H | [H | H]]; discriminate.
Qed.

Lemma alternativeData_open (w : World) (n : NudgeResponse) (d : NudgeData) :
  currentNudge w = Some n -> data n = Some d ->
  alternativeData "alternative" w = Some d.
Proof.
  intros Hnudge Hdata. unfold alternativeData; cbn. rewrite Hnudge. exact Hdata.
Qed.

(** C4, as the specification states it, fails: an alternative that costs
    nothing is strictly cheaper, yet accepting it leaves the original line in
    the cart and adds no line (the price [0] is falsy in the guard of the
    swap). *)
Lemma accept_free_alternative_keeps_cart :
  let w :=
    setCurrentNudge (Some (Sample.cheaper (Some "Yttrium lamp") (Some 0) false))
      (Sample.page [Sample.lineX] (Some Sample.alice)) in
  let w' := handleNudgeAccept "alternative" w in
  0 < price Sample.lineX /\
  items w' = [Sample.lineX] /\
  filter (Cart.has_slug "y") (items w') = [] /\
  notification w' = None.
Proof. cbn. repeat split. Qed.

(** C4, amended.  Let the cart start with the line [x], and let an open
    alternative nudge that is not marked as already cheapest carry a
    non-empty product name, a price other than zero and a current price.
    If the slug of the line built for the alternative is not yet in the
    cart, accepting the nudge leaves the other lines, followed by that line:
    it is the only line of its slug, it has the quantity of [x], no line has
    the slug of [x] any more, and the notification reports
    [currentPrice - alternativePrice] as saved. *)
Theorem accept_cheaper_alternative
    (w : World) (n : NudgeResponse) (d : NudgeData)
    (x : CartItem) (rest : list CartItem) (name : string) (p c : Z) :
  currentNudge w = Some n ->
  data n = Some d ->
  isAlreadyCheapest d = Some false ->
  alternativeProduct d = Some name -> name <> "" ->
  alternativePrice d = Some p -> p <> 0 ->
  currentPrice d = Some c ->
  items w = x :: rest ->
  let y := alternativeLine d x name p w in
  ~ In (slug y) (Cart.slugs (items w)) ->
  let w' := handleNudgeAccept "alternative" w in
  items w' = Cart.remove (slug x) rest ++ [y] /\
  filter (Cart.has_slug (slug y)) (items w') = [y] /\
  quantity y = quantity x /\
  (forall i, In i (items w') -> slug i <> slug x) /\
  notification w' = Some (success, MsgSwitched name (Some (c - p))) /\
  currentNudge w' = None.
Proof.
  intros Hnudge Hdata Hcheapest Hname Hnonempty Hprice Hnonzero Hcurrent Hitems y Hfresh w'.
  assert (Hw' : items w' = Cart.remove (slug x) rest ++ [y] /\
                notification w' = Some (success, MsgSwitched name (Some (c - p))) /\
                currentNudge w' = None).
  { subst w'. unfold handleNudgeAccept.
    rewrite (alternativeData_open w n d Hnudge Hdata).
    rewrite Hcheapest, Hitems, Hname, Hprice, Hcurrent; cbn.
    apply String.eqb_neq in Hnonempty. rewrite Hnonempty.
    apply Z.eqb_neq in Hnonzero. rewrite Hnonzero. cbn.
    repeat split.
    rewrite Hitems. cbn. unfold Cart.has_slug at 1.
    rewrite String.eqb_refl; cbn.
    apply CartFacts.add_fresh. apply CartFacts.remove_keeps_absent.
    rewrite Hitems in Hfresh. intros Hin. apply Hfresh. right. exact Hin. }
  destruct Hw' as (Hcart & Hnote & Hcleared).
  assert (Hy : slug y <> slug x).
  { intros Heq. apply Hfresh. rewrite Hitems. left. symmetry. exact Heq. }
  repeat split; try assumption.
  - rewrite Hcart, filter_app.
    rewrite CartFacts.filter_absent.
    + cbn [filter app]. unfold Cart.has_slug.
      rewrite String.eqb_refl. reflexivity.
    + apply CartFacts.remove_keeps_absent.
      rewrite Hitems in Hfresh. intros Hin. apply Hfresh. right. exact Hin.
  - intros i Hin. rewrite Hcart in Hin. apply in_app_or in Hin.
    destruct Hin as [Hin | [<- | []]]; [|exact Hy].
    apply CartFacts.in_remove in Hin. tauto.
Qed.

(** Scenario D of the specification: a lamp at 50 euros, three of them, and
    an alternative at 30 euros. *)
Lemma accept_cheaper_alternative_witness :
  let w :=
    setCurrentNudge (Some (Sample.cheaper (Some "Yttrium lamp") (Some 3000) false))
      (Sample.page [Sample.lineX; Sample.lineA] (Some Sample.alice)) in
  let y := {| slug := "y"; title := "Yttrium lamp"; price := 3000; quantity := 3;
              image := "/images/y.jpg"; category := "lamps" |} in
  let w' := handleNudgeAccept "alternative" w in
  items w' = [Sample.lineA; y] /\
  filter (Cart.has_slug "y") (items w') = [y] /\
  quantity y = 3 /\
  (forall i, In i (items w') -> slug i <> "x") /\
  notification w' = Some (success, MsgSwitched "Yttrium lamp" (Some 2000)) /\
  currentNudge w' = None.
Proof.
  refine (accept_cheaper_alternative
            (setCurrentNudge (Some (Sample.cheaper (Some "Yttrium lamp") (Some 3000) false))
               (Sample.page [Sample.lineX; Sample.lineA] (Some Sample.alice)))
            (Sample.cheaper (Some "Yttrium lamp") (Some 3000) false)
            _ Sample.lineX [Sample.lineA] "Yttrium lamp" 3000 5000
            eq_refl eq_refl eq_refl eq_refl _ eq_refl _ eq_refl eq_refl _).
  - discriminate.
  - discriminate.
  - cbn. intros [H | [H | []]]; discriminate.
Defined.

(** C5.  On a cart (slugs unique, as the cart guarantees) that starts with
    the line [x], accepting an alternative nudge marked as already cheapest
    removes [x] and nothing else: the only call to the cart is
    [removeItem (slug x)], no line is added, and the notification reports
    [price x * quantity x] as saved. *)
Theorem accept_already_cheapest
    (w : World) (n : NudgeResponse) (d : NudgeData)
    (x : CartItem) (rest : list CartItem) :
  currentNudge w = Some n ->
  data n = Some d ->
  isAlreadyCheapest d = Some true ->
  items w = x :: rest ->
  NoDup (Cart.slugs (items w)) ->
  let w' := handleNudgeAccept "alternative" w in
  items w' = rest /\
  callsSince w w' = [RecordNudgeInteraction "alternative" true; RemoveItem (slug x)] /\
  notification w' = Some (success, MsgSavedByRemoving (price x * quantity x) (title x)) /\
  currentNudge w' = None.
Proof.
  intros Hnudge Hdata Hcheapest Hitems Hnodup w'.
  subst w'. unfold handleNudgeAccept, callsSince.
  rewrite (alternativeData_open w n d Hnudge Hdata).
  rewrite Hcheapest, Hitems; cbn.
  repeat split.
  - rewrite Hitems in *. apply (CartFacts.remove_head x rest Hnodup).
  - rewrite <- app_assoc. apply skipn_length_app.
Qed.

Lemma accept_already_cheapest_witness :
  let w :=
    setCurrentNudge (Some (Sample.cheaper (Some "Xenon lamp") (Some 5000) true))
      (Sample.page [Sample.lineX; Sample.lineA] (Some Sample.alice)) in
  let w' := handleNudgeAccept "alternative" w in
  items w' = [Sample.lineA] /\
  callsSince w w' = [RecordNudgeInteraction "alternative" true; RemoveItem "x"] /\
  notification w' = Some (success, MsgSavedByRemoving 15000 "Xenon lamp") /\
  currentNudge w' = None.
Proof.
  refine (accept_already_cheapest
            (setCurrentNudge (Some (Sample.cheaper (Some "Xenon lamp") (Some 5000) true))
               (Sample.page [Sample.lineX; Sample.lineA] (Some Sample.alice)))
            (Sample.cheaper (Some "Xenon lamp") (Some 5000) true)
            _ Sample.lineX [Sample.lineA] eq_refl eq_refl eq_refl eq_refl _).
  cbn. repeat constructor.
  - intros [H | []]. discriminate.
  - intros [].
Defined.

(** C9.  Whatever nudge is open, when accepting an alternative nudge calls
    [removeItem] it is with the slug of the first line of the cart, and a line
    is added only after such a removal.  On an empty cart the handler calls
    the cart not at all: it records the interaction and clears the nudge. *)
Theorem accept_alternative_targets_first_line (w : World) :
  let w' := handleNudgeAccept "alternative" w in
  (forall s, In (RemoveItem s) (callsSince w w') ->
             option_map slug (hd_error (items w)) = Some s) /\
  (forall y, In (AddItem y) (callsSince w w') ->
             exists s, In (RemoveItem s) (callsSince w w')) /\
  (items w = [] ->
   w' = (w |> call (RecordNudgeInteraction "alternative" true)
           |> setCurrentNudge None) /\
   filter isCartCall (callsSince w w') = [] /\
   items w' = []).
Proof.
  cbn zeta. unfold handleNudgeAccept, callsSince.
  destruct (alternativeData "alternative" w) as [d|];
    [destruct (Js.truthy_bool (isAlreadyCheapest d)) |];
    destruct (items w) as [|x rest] eqn:Hitems; cbn;
    try (destruct (Js.truthy_str (alternativeProduct d)) as [name|];
         [destruct (Js.truthy_num (alternativePrice d)) as [p|] |]; cbn);
    rewrite <- ?app_assoc, skipn_length_app; cbn;
    (split; [|split]);
    try (intros c Hin; cbn in Hin; decompose [or] Hin;
         try discriminate; try contradiction;
         try congruence; exists (slug x); right; left; reflexivity);
    try discriminate;
    intros _; repeat split; exact Hitems.
Qed.

(** The nudge describes the lamp, the cart starts with another line: that
    first line is the one removed. *)
Lemma accept_alternative_targets_first_line_witness :
  let w :=
    setCurrentNudge (Some (Sample.cheaper (Some "Yttrium lamp") (Some 3000) false))
      (Sample.page [Sample.lineA; Sample.lineX] (Some Sample.alice)) in
  let e :=
    setCurrentNudge (Some (Sample.cheaper (Some "Yttrium lamp") (Some 3000) false))
      (Sample.page [] (Some Sample.alice)) in
  option_map slug (hd_error (items w)) = Some "a" /\
  (exists s, In (RemoveItem s) (callsSince w (handleNudgeAccept "alternative" w))) /\
  items (handleNudgeAccept "alternative" e) = [].
Proof.
  split; [|split].
  - apply (proj1 (accept_alternative_targets_first_line
                    (setCurrentNudge
                       (Some (Sample.cheaper (Some "Yttrium lamp") (Some 3000) false))
                       (Sample.page [Sample.lineA; Sample.lineX] (Some Sample.alice))))
             "a").
    cbn. right; left; reflexivity.
  - eapply (proj1 (proj2 (accept_alternative_targets_first_line
                            (setCurrentNudge
                               (Some (Sample.cheaper (Some "Yttrium lamp") (Some 3000) false))
                               (Sample.page [Sample.lineA; Sample.lineX]
                                  (Some Sample.alice)))))).
    cbn. right; right; left; reflexivity.
  - apply (proj2 (proj2 (accept_alternative_targets_first_line
                           (setCurrentNudge
                              (Some (Sample.cheaper (Some "Yttrium lamp") (Some 3000) false))
                              (Sample.page [] (Some Sample.alice)))))
             eq_refl).
Defined.

(** C10.  When an open alternative nudge that is not marked as already
    cheapest carries the price [0], or no product name, accepting it makes no
    call to the cart and raises no notification: apart from the interaction
    being recorded with the nudge service, the world after is the world
    before with the current nudge cleared. *)
Theorem accept_unusable_alternative
    (w : World) (n : NudgeResponse) (d : NudgeData) :
  currentNudge w = Some n ->
  data n = Some d ->
  isAlreadyCheapest d = Some false ->
  alternativePrice d = Some 0 \/ alternativeProduct d = None ->
  let w' := handleNudgeAccept "alternative" w in
  w' = (w |> call (RecordNudgeInteraction "alternative" true)
          |> setCurrentNudge None) /\
  items w' = items w /\
  callsSince w w' = [RecordNudgeInteraction "alternative" true] /\
  showNotification w' = showNotification w /\
  notificationType w' = notificationType w /\
  notificationMessage w' = notificationMessage w /\
  canProceedWithCheckout w' = canProceedWithCheckout w /\
  modshop_orders w' = modshop_orders w /\
  currentNudge w' = None.
Proof.
  intros Hnudge Hdata Hcheapest Hunusable w'.
  assert (Hw' : w' = (w |> call (RecordNudgeInteraction "alternative" true)
                        |> setCurrentNudge None)).
  { subst w'.
    apply (handleNudgeAccept_dismisses "alternative" w d
             (alternativeData_open w n d Hnudge Hdata)).
    - rewrite Hcheapest. reflexivity.
    - right. destruct Hunusable as [Hzero | Habsent].
      + right. rewrite Hzero. reflexivity.
      + left. rewrite Habsent. reflexivity. }
  rewrite Hw'. unfold callsSince. cbn.
  rewrite skipn_length_app. repeat split.
Qed.

Lemma accept_unusable_alternative_witness :
  let w :=
    setCurrentNudge (Some (Sample.cheaper (Some "Yttrium lamp") (Some 0) false))
      (Sample.page [Sample.lineX; Sample.lineA] (Some Sample.alice)) in
  let v :=
    setCurrentNudge (Some (Sample.cheaper None (Some 3000) false))
      (Sample.page [Sample.lineX; Sample.lineA] (Some Sample.alice)) in
  items (handleNudgeAccept "alternative" w) = [Sample.lineX; Sample.lineA] /\
  items (handleNudgeAccept "alternative" v) = [Sample.lineX; Sample.lineA].
Proof.
  split.
  - exact (proj1 (proj2 (accept_unusable_alternative
             (setCurrentNudge (Some (Sample.cheaper (Some "Yttrium lamp") (Some 0) false))
                (Sample.page [Sample.lineX; Sample.lineA] (Some Sample.alice)))
             (Sample.cheaper (Some "Yttrium lamp") (Some 0) false) _
             eq_refl eq_refl eq_refl (or_introl eq_refl)))).
  - exact (proj1 (proj2 (accept_unusable_alternative
             (setCurrentNudge (Some (Sample.cheaper None (Some 3000) false))
                (Sample.page [Sample.lineX; Sample.lineA] (Some Sample.alice)))
             (Sample.cheaper None (Some 3000) false) _
             eq_refl eq_refl eq_refl (or_intror eq_refl)))).
Defined.

(** ** The total of the cart *)

Lemma total_shift (l : list CartItem) :
  forall acc,
    fold_left (fun sum item => sum + price item * quantity item) l acc
    = acc + total l.
Proof.
  unfold total.
  induction l as [|i l IH]; intros acc; cbn.
  - lia.
  - rewrite IH, (IH (price i * quantity i)). lia.
Qed.

Lemma total_cons (i : CartItem) (l : list CartItem) :
  total (i :: l) = price i * quantity i + total l.
Proof. unfold total at 1; cbn. apply total_shift. Qed.




(** X3.  When no line has a negative price and every quantity is at least
    1, the total is not negative and no line costs more than the total. *)
Theorem total_bounds (l : list CartItem) :
  Forall wellFormed l ->
  0 <= total l /\
  forall i, In i l -> price i * quantity i <= total l.
Proof.
  induction 1 as [|i l [Hprice Hqty] Hall [IHpos IHin]].
  - split; [reflexivity | intros i []].
  - rewrite total_cons.
    assert (0 <= price i * quantity i) by nia.
    split; [lia|].
    intros j [<- | Hin]; [lia|].
    specialize (IHin j Hin). lia.
Qed.

Lemma total_bounds_witness :
  0 <= total [Sample.lineA; Sample.lineX] /\
  forall i, In i [Sample.lineA; Sample.lineX] ->
            price i * quantity i <= total [Sample.lineA; Sample.lineX].
Proof.
  apply (total_bounds [Sample.lineA; Sample.lineX]).
  repeat constructor; cbn; discriminate.
Defined.

(** ** Checkout requests of a logged-in user *)

Lemma or_str_email (u : User) : Js.or_str (Some (email u)) "" = email u.
Proof.
  unfold Js.or_str. destruct (String.eqb_spec (email u) "") as [Heq | Hneq];
    [symmetry; exact Heq | reflexivity].
Qed.

(** A request that is not held back by a nudge commits the cart of the
    render. *)
Lemma handleCheckout_goes_through
    (svc : NudgeService) (w : World) (u : User) (stored : list Order) :
  user w = Some u ->
  canProceedWithCheckout w = true \/
  is_none (type (triggerNudge svc (items w) (total (items w)))) = true ->
  parseOrders (modshop_orders w) = Some stored ->
  storageWritable w = true ->
  exists w',
    handleCheckout svc w = Returned w' /\
    items w' = [] /\
    modshop_orders w' = Some (OrdersJson (stored ++ [buildOrder w w])) /\
    notification w' = Some (success, MsgOrderPlaced) /\
    canProceedWithCheckout w' = false /\
    currentNudge w' = None.
Proof.
  intros Huser Hfree Hparse Hwrite. unfold handleCheckout. rewrite Huser.
  destruct (canProceedWithCheckout w) eqn:Hflag; cbn [negb].
  - destruct (processCheckout_returns w w stored Hparse Hwrite)
      as (w' & Heq & Hitems & Hstored & Hnote & Hreset & Hnudge & _).
    exists w'. repeat split; assumption.
  - destruct Hfree as [Hfree | Hnone]; [discriminate|].
    rewrite Hnone; cbn [negb].
    destruct (processCheckout_returns w
                (w |> call (TriggerNudge (items w) (total (items w)))) stored
                Hparse Hwrite)
      as (w' & Heq & Hitems & Hstored & Hnote & Hreset & Hnudge & _).
    exists w'. repeat split; assumption.
Qed.

(** X4.  When a logged-in user requests checkout, the override is not set
    and the nudge service answers [none], the request asks the service once,
    with the cart and its total, and commits: the order appended to the
    stored ones carries the cart, its total and the user's email, the cart is
    emptied and the success notification is shown. *)
Theorem handleCheckout_commits_when_no_nudge
    (svc : NudgeService) (w : World) (u : User) (stored : list Order) :
  user w = Some u ->
  canProceedWithCheckout w = false ->
  is_none (type (triggerNudge svc (items w) (total (items w)))) = true ->
  parseOrders (modshop_orders w) = Some stored ->
  storageWritable w = true ->
  let o := handleCheckout svc w in
  let order := {| id := Js.toString (now w); order_items := items w;
                  order_total := total (items w); date := now w;
                  userEmail := email u |} in
  returned o = true /\
  persistedOrders (world_of o) = stored ++ [order] /\
  items (world_of o) = [] /\
  callsSince w (world_of o)
  = [TriggerNudge (items w) (total (items w)); SetItem (stored ++ [order]); ClearCart] /\
  notification (world_of o) = Some (success, MsgOrderPlaced) /\
  currentNudge (world_of o) = None /\
  canProceedWithCheckout (world_of o) = false.
Proof.
  intros Huser Hflag Hnone Hparse Hwrite o order.
  assert (Horder : buildOrder w w = order).
  { unfold buildOrder, order. rewrite Huser. cbn [option_map].
    rewrite or_str_email. reflexivity. }
  subst o. unfold handleCheckout, callsSince, persistedOrders.
  rewrite Huser, Hflag, Hnone; cbn [negb].
  unfold processCheckout; cbn. rewrite Hparse, Hwrite; cbn.
  change (buildOrder w _) with (buildOrder w w). rewrite Horder.
  repeat split.
  rewrite <- !app_assoc. apply skipn_length_app.
Qed.

(** Scenario B of the specification: one line at 10 euros, once. *)
Lemma handleCheckout_commits_when_no_nudge_witness :
  let w := Sample.page [Sample.lineB] (Some Sample.alice) in
  let o := handleCheckout Sample.quiet w in
  returned o = true /\
  persistedOrders (world_of o)
  = [{| id := "1700000000000"; order_items := [Sample.lineB];
        order_total := 700; date := 1700000000000;
        userEmail := "alice@example.org" |}] /\
  items (world_of o) = [].
Proof.
  pose proof (handleCheckout_commits_when_no_nudge Sample.quiet
                (Sample.page [Sample.lineB] (Some Sample.alice)) Sample.alice []
                eq_refl eq_refl eq_refl eq_refl eq_refl) as H.
  cbn zeta in H. destruct H as (Hret & Horders & Hitems & _).
  split; [exact Hret | split; [exact Horders | exact Hitems]].
Defined.

(** X5.  When a logged-in user requests checkout, the override is not set
    and the nudge service answers with a nudge, that nudge becomes the
    current one exactly as the service gave it, after a single evaluation;
    nothing is stored, and the cart, the notification and the override are
    left as they were. *)
Theorem handleCheckout_surfaces_nudge
    (svc : NudgeService) (w : World) (u : User) :
  user w = Some u ->
  canProceedWithCheckout w = false ->
  is_none (type (triggerNudge svc (items w) (total (items w)))) = false ->
  let o := handleCheckout svc w in
  returned o = true /\
  currentNudge (world_of o) = Some (triggerNudge svc (items w) (total (items w))) /\
  callsSince w (world_of o) = [TriggerNudge (items w) (total (items w))] /\
  modshop_orders (world_of o) = modshop_orders w /\
  items (world_of o) = items w /\
  notification (world_of o) = notification w /\
  canProceedWithCheckout (world_of o) = false.
Proof.
  intros Huser Hflag Hnudge o. subst o.
  unfold handleCheckout, callsSince. rewrite Huser, Hflag, Hnudge; cbn.
  repeat split; try assumption.
  apply skipn_length_app.
Qed.

Lemma handleCheckout_surfaces_nudge_witness :
  let w := Sample.page [Sample.lineA] (Some Sample.alice) in
  let o := handleCheckout Sample.strict w in
  returned o = true /\
  nudgeTypeOf (world_of o) = Some block /\
  items (world_of o) = [Sample.lineA] /\
  modshop_orders (world_of o) = None.
Proof.
  pose proof (handleCheckout_surfaces_nudge Sample.strict
                (Sample.page [Sample.lineA] (Some Sample.alice)) Sample.alice
                eq_refl eq_refl eq_refl) as H.
  cbn zeta in H. destruct H as (Hret & Hnudge & _ & Hstored & Hitems & _).
  repeat split; assumption.
Defined.

(** X6.  [handleCheckout] has no guard on the cart being empty: for a
    logged-in user with an empty cart, a request that is not held back by a
    nudge stores an order that has no items and a total of 0, and shows the
    success notification. *)
Theorem handleCheckout_empty_cart
    (svc : NudgeService) (w : World) (u : User) (stored : list Order) :
  user w = Some u ->
  items w = [] ->
  canProceedWithCheckout w = true \/
  is_none (type (triggerNudge svc [] 0)) = true ->
  parseOrders (modshop_orders w) = Some stored ->
  storageWritable w = true ->
  let o := handleCheckout svc w in
  exists order,
    returned o = true /\
    persistedOrders (world_of o) = stored ++ [order] /\
    order_items order = [] /\
    order_total order = 0 /\
    notification (world_of o) = Some (success, MsgOrderPlaced).
Proof.
  intros Huser Hempty Hfree Hparse Hwrite o. subst o.
  destruct (handleCheckout_goes_through svc w u stored Huser) as
    (w' & Heq & _ & Hstored & Hnote & _); try assumption.
  { rewrite Hempty. exact Hfree. }
  exists (buildOrder w w). rewrite Heq. cbn [returned world_of].
  unfold persistedOrders. rewrite Hstored. cbn.
  rewrite Hempty. repeat split. exact Hnote.
Qed.

Lemma handleCheckout_empty_cart_witness :
  let o := handleCheckout Sample.quiet (Sample.page [] (Some Sample.alice)) in
  exists order,
    returned o = true /\
    persistedOrders (world_of o) = [] ++ [order] /\
    order_items order = [] /\
    order_total order = 0 /\
    notification (world_of o) = Some (success, MsgOrderPlaced).
Proof.
  exact (handleCheckout_empty_cart Sample.quiet (Sample.page [] (Some Sample.alice))
           Sample.alice [] eq_refl eq_refl (or_intror eq_refl) eq_refl eq_refl).
Defined.

(** ** When the order cannot be stored *)

(** X7.  When rejecting a gentle or a block nudge runs into a storage that
    cannot be read or written, the handler throws with the nudge cleared and
    [canProceedWithCheckout] still set: the cart, storage and the
    notification are as before, the checkout animation stays on, and the next
    checkout request will not consult the nudge service. *)
Theorem handleNudgeReject_failure_keeps_override
    (svc : NudgeService) (t : string) (w : World) :
  t = "gentle" \/ t = "block" ->
  parseOrders (modshop_orders w) = None \/ storageWritable w = false ->
  let o := handleNudgeReject t w in
  returned o = false /\
  canProceedWithCheckout (world_of o) = true /\
  currentNudge (world_of o) = None /\
  checkoutAnimating (world_of o) = true /\
  items (world_of o) = items w /\
  modshop_orders (world_of o) = modshop_orders w /\
  notification (world_of o) = notification w /\
  nudgeEvaluations (world_of (handleCheckout svc (world_of o))) = nudgeEvaluations w.
Proof.
  intros Ht Hfail o.
  assert (Ho : o = processCheckout w
                     (w |> call (RecordNudgeInteraction t false)
                        |> setCurrentNudge None
                        |> setCanProceedWithCheckout true)).
  { subst o. unfold handleNudgeReject. destruct Ht as [-> | ->]; reflexivity. }
  assert (Hflag : canProceedWithCheckout (world_of o) = true).
  { rewrite Ho. unfold processCheckout; cbn.
    destruct (parseOrders (modshop_orders w)) as [stored|]; [|reflexivity].
    destruct Hfail as [Hnone | Hwrite]; [discriminate|].
    rewrite Hwrite. reflexivity. }
  assert (Hcount : nudgeEvaluations (world_of o) = nudgeEvaluations w).
  { rewrite Ho, processCheckout_no_evaluation.
    unfold nudgeEvaluations; cbn. rewrite filter_app; cbn.
    apply f_equal, app_nil_r. }
  rewrite (handleCheckout_no_evaluation svc _ Hflag), Hcount.
  split; [|split; [exact Hflag|]].
  - rewrite Ho. unfold processCheckout; cbn.
    destruct (parseOrders (modshop_orders w)) as [stored|]; [|reflexivity].
    destruct Hfail as [Hnone | Hwrite]; [discriminate|].
    rewrite Hwrite. reflexivity.
  - rewrite Ho. unfold processCheckout, notification; cbn.
    destruct (parseOrders (modshop_orders w)) as [stored|]; [|repeat split].
    destruct Hfail as [Hnone | Hwrite]; [discriminate|].
    rewrite Hwrite. repeat split.
Qed.

Lemma handleNudgeReject_failure_keeps_override_witness :
  let w := triggerGentleNudge
             (Sample.pageOver (Some Malformed) true [Sample.lineA] (Some Sample.alice)) in
  let o := handleNudgeReject "gentle" w in
  returned o = false /\
  canProceedWithCheckout (world_of o) = true /\
  items (world_of o) = [Sample.lineA] /\
  nudgeEvaluations (world_of (handleCheckout Sample.strict (world_of o))) = 0%nat.
Proof.
  pose proof (handleNudgeReject_failure_keeps_override Sample.strict "gentle"
                (triggerGentleNudge
                   (Sample.pageOver (Some Malformed) true [Sample.lineA]
                      (Some Sample.alice)))
                (or_introl eq_refl) (or_introl eq_refl)) as H.
  cbn zeta in H.
  destruct H as (Hret & Hflag & _ & _ & Hitems & _ & _ & Hcount).
  split; [exact Hret | split; [exact Hflag | split; [exact Hitems | exact Hcount]]].
Defined.

(** X8.  [processCheckout] leaves the checkout animation on exactly when
    it throws: after a commit the flag is off again, after a failure it is
    still on.  The timeout of the effect then switches it off, and changes
    nothing else. *)
Theorem processCheckout_animation (snap w : World) :
  checkoutAnimating (world_of (processCheckout snap w))
  = negb (returned (processCheckout snap w)) /\
  (forall v, checkoutAnimationTimeout v = setCheckoutAnimating false v) /\
  checkoutAnimating
    (checkoutAnimationTimeout (world_of (processCheckout snap w))) = false.
Proof.
  assert (Htimeout : forall v, checkoutAnimationTimeout v = setCheckoutAnimating false v).
  { intros v. unfold checkoutAnimationTimeout.
    destruct v as [its u anim shown ty msg nudge flag stored writable clock calls].
    cbn. destruct anim; reflexivity. }
  split; [|split; [exact Htimeout | rewrite Htimeout; reflexivity]].
  unfold processCheckout; cbn.
  destruct (parseOrders (modshop_orders w)) as [stored|]; [|reflexivity].
  destruct (storageWritable w); reflexivity.
Qed.

(** ** What the accept handler leaves alone *)

Lemma handleNudgeAccept_keeps (t : string) (w : World) :
  currentNudge (handleNudgeAccept t w) = None /\
  modshop_orders (handleNudgeAccept t w) = modshop_orders w /\
  canProceedWithCheckout (handleNudgeAccept t w) = canProceedWithCheckout w.
Proof.
  unfold handleNudgeAccept.
  destruct (alternativeData t w) as [d|];
    try (destruct (Js.truthy_bool (isAlreadyCheapest d));
         destruct (hd_error (items w)) as [x|];
         try (destruct (Js.truthy_str (alternativeProduct d)) as [name|];
              [destruct (Js.truthy_num (alternativePrice d)) as [p|] |]));
    repeat split.
Qed.

(** X9.  Whatever the nudge type, accepting a nudge clears the current
    nudge and never touches order storage, the override, the user or the
    count of nudge evaluations.  For any type other than ['alternative'] it
    does nothing more than record the interaction and clear the nudge: the
    cart and the notification are as before, and nothing is committed. *)
Theorem handleNudgeAccept_frame (t : string) (w : World) :
  let w' := handleNudgeAccept t w in
  currentNudge w' = None /\
  modshop_orders w' = modshop_orders w /\
  canProceedWithCheckout w' = canProceedWithCheckout w /\
  user w' = user w /\
  nudgeEvaluations w' = nudgeEvaluations w /\
  (t <> "alternative" ->
   w' = (w |> call (RecordNudgeInteraction t true) |> setCurrentNudge None) /\
   items w' = items w /\
   notification w' = notification w).
Proof.
  cbn zeta. unfold handleNudgeAccept, alternativeData, nudgeEvaluations.
  destruct (String.eqb_spec t "alternative") as [-> | Hother].
  - destruct (currentNudge w) as [n|]; [destruct (data n) as [d|] |];
      try (destruct (Js.truthy_bool (isAlreadyCheapest d));
           destruct (hd_error (items w)) as [x|];
           try (destruct (Js.truthy_str (alternativeProduct d)) as [name|];
                [destruct (Js.truthy_num (alternativePrice d)) as [p|] |]));
      cbn; rewrite ?filter_app; cbn; rewrite ?app_nil_r;
      repeat split; try reflexivity; congruence.
  - cbn. rewrite filter_app; cbn. rewrite app_nil_r. repeat split.
Qed.

Lemma handleNudgeAccept_frame_witness :
  let w := triggerGentleNudge (Sample.page [Sample.lineA] (Some Sample.alice)) in
  items (handleNudgeAccept "gentle" w) = [Sample.lineA] /\
  notification (handleNudgeAccept "gentle" w) = None.
Proof.
  pose proof (proj2 (proj2 (proj2 (proj2 (proj2
                (handleNudgeAccept_frame "gentle"
                   (triggerGentleNudge
                      (Sample.page [Sample.lineA] (Some Sample.alice))))))))) as H.
  destruct H as (_ & Hitems & Hnote); [discriminate|].
  split; [exact Hitems | exact Hnote].
Defined.

(** ** Recording of interactions *)

(** X10.  Every resolution of a nudge is recorded with the nudge service
    exactly once: an acceptance as accepted, a rejection as not accepted
    (whether or not the commit that may follow succeeds), the completion of a
    block nudge as an accepted ['block'].  A checkout request records
    nothing. *)
Theorem nudge_resolution_recorded_once
    (svc : NudgeService) (t : string) (w : World) :
  filter isRecord (callsSince w (handleNudgeAccept t w))
  = [RecordNudgeInteraction t true] /\
  filter isRecord (callsSince w (world_of (handleNudgeReject t w)))
  = [RecordNudgeInteraction t false] /\
  filter isRecord (callsSince w (handleBlockComplete w))
  = [RecordNudgeInteraction "block" true] /\
  filter isRecord (callsSince w (world_of (handleCheckout svc w))) = [].
Proof.
  unfold callsSince. repeat split.
  - unfold handleNudgeAccept.
    destruct (alternativeData t w) as [d|];
      try (destruct (Js.truthy_bool (isAlreadyCheapest d));
           destruct (hd_error (items w)) as [x|];
           try (destruct (Js.truthy_str (alternativeProduct d)) as [name|];
                [destruct (Js.truthy_num (alternativePrice d)) as [p|] |]));
      cbn; rewrite <- ?app_assoc, skipn_length_app; reflexivity.
  - unfold handleNudgeReject, processCheckout.
    destruct (String.eqb t "gentle" || String.eqb t "block"); cbn;
      try (destruct (parseOrders (modshop_orders w)) as [stored|];
           [destruct (storageWritable w) |]);
      cbn; rewrite <- ?app_assoc, skipn_length_app; reflexivity.
  - unfold handleBlockComplete; cbn. rewrite skipn_length_app. reflexivity.
  - unfold handleCheckout, processCheckout.
    destruct (user w) as [u|]; [destruct (canProceedWithCheckout w) |]; cbn;
      try (destruct (is_none _)); cbn;
      try (destruct (parseOrders (modshop_orders w)) as [stored|];
           [destruct (storageWritable w) |]);
      cbn; rewrite <- ?app_assoc, ?skipn_length_app, ?skipn_all; reflexivity.
Qed.

(** ** Asking for an alternative *)

Lemma or_num_some (p d : Z) : or_num (Some p) d = if Z.eqb p 0 then d else p.
Proof. unfold or_num, Js.truthy_num. destruct (Z.eqb p 0); reflexivity. Qed.

(** X11.  On an empty cart [triggerAlternativeNudge] does nothing, not
    even a lookup.  Otherwise it looks up an alternative for the first line,
    once, and the component rendered for the nudge shows that line's price
    and the alternative's price as they are, and their names unless empty
    (then the fallback texts); the cart is untouched. *)
Theorem triggerAlternativeNudge_view (svc : NudgeService) (w : World) :
  (items w = [] -> triggerAlternativeNudge svc w = w) /\
  (forall x rest,
      items w = x :: rest ->
      let alt := getCheaperAlternative svc x in
      let w' := triggerAlternativeNudge svc w in
      callsSince w w' = [GetCheaperAlternative x] /\
      items w' = items w /\
      nudgeView w'
      = Some (CheaperAlternativeNudge
                (if String.eqb (title x) "" then "Current item" else title x)
                (price x)
                (if String.eqb (alt_name alt) "" then "Basic Alternative"
                 else alt_name alt)
                (alt_price alt)
                (alt_isAlreadyCheapest alt))).
Proof.
  unfold triggerAlternativeNudge. split.
  - intros ->. reflexivity.
  - intros x rest Hitems. rewrite Hitems. cbn zeta.
    unfold callsSince, nudgeView, nudgeTypeOf, payload; cbn.
    rewrite skipn_length_app, !or_num_some.
    repeat split; [exact Hitems|].
    destruct (Z.eqb_spec (price x) 0) as [-> | _];
      destruct (Z.eqb_spec (alt_price (getCheaperAlternative svc x)) 0) as [-> | _];
      reflexivity.
Qed.

Lemma triggerAlternativeNudge_view_witness :
  triggerAlternativeNudge (Fixture.offering Fixture.yttrium)
    (Sample.page [] (Some Sample.alice))
  = Sample.page [] (Some Sample.alice) /\
  nudgeView (triggerAlternativeNudge (Fixture.offering Fixture.yttrium)
               (Sample.page [Sample.lineX; Sample.lineA] (Some Sample.alice)))
  = Some (CheaperAlternativeNudge "Xenon lamp" 5000 "Yttrium lamp" 3000 false).
Proof.
  split.
  - exact (proj1 (triggerAlternativeNudge_view (Fixture.offering Fixture.yttrium)
                    (Sample.page [] (Some Sample.alice))) eq_refl).
  - exact (proj2 (proj2 (proj2 (triggerAlternativeNudge_view
                    (Fixture.offering Fixture.yttrium)
                    (Sample.page [Sample.lineX; Sample.lineA] (Some Sample.alice)))
                    Sample.lineX [Sample.lineA] eq_refl))).
Defined.

(** What accepting does with the nudge that [triggerAlternativeNudge] built
    on the same cart. *)
Lemma accept_after_trigger (svc : NudgeService) (w : World)
    (x : CartItem) (rest : list CartItem) :
  items w = x :: rest ->
  let alt := getCheaperAlternative svc x in
  let w1 := triggerAlternativeNudge svc w in
  alternativeData "alternative" w1
  = Some {| productTitle := None;
            currentProduct := Some (title x);
            currentPrice := Some (price x);
            alternativeProduct := Some (alt_name alt);
            alternativePrice := Some (alt_price alt);
            alternativeSlug := Some (alt_slug alt);
            alternativeImage := Some (alt_image alt);
            alternativeCategory := Some (alt_category alt);
            isAlreadyCheapest := Some (alt_isAlreadyCheapest alt);
            duration := None |} /\
  items w1 = x :: rest /\
  now w1 = now w.
Proof.
  intros Hitems. cbn zeta. unfold triggerAlternativeNudge. rewrite Hitems.
  cbn. repeat split. exact Hitems.
Qed.

(** X12.  Asking for an alternative and accepting it, on the same cart.
    If the service says the first line is already the cheapest, the only call
    to the cart removes that line and the notification reports its price
    times its quantity.  If the service offers an alternative with a name and
    a price other than zero, the first line is removed and a line is added
    with the alternative's name and price and the first line's quantity, and
    the notification reports the difference of the two unit prices. *)
Theorem trigger_then_accept_alternative
    (svc : NudgeService) (w : World) (x : CartItem) (rest : list CartItem) :
  items w = x :: rest ->
  let alt := getCheaperAlternative svc x in
  let w1 := triggerAlternativeNudge svc w in
  let w2 := handleNudgeAccept "alternative" w1 in
  (alt_isAlreadyCheapest alt = true ->
   filter isCartCall (callsSince w w2) = [RemoveItem (slug x)] /\
   notification w2
   = Some (success, MsgSavedByRemoving (price x * quantity x) (title x))) /\
  (alt_isAlreadyCheapest alt = false ->
   alt_name alt <> "" -> alt_price alt <> 0 ->
   exists y,
     filter isCartCall (callsSince w w2) = [RemoveItem (slug x); AddItem y] /\
     title y = alt_name alt /\ price y = alt_price alt /\
     quantity y = quantity x /\
     notification w2
     = Some (success, MsgSwitched (alt_name alt) (Some (price x - alt_price alt)))).
Proof.
  intros Hitems alt w1 w2.
  destruct (accept_after_trigger svc w x rest Hitems) as (Hdata & Hitems1 & _).
  fold alt w1 in Hdata, Hitems1.
  assert (Htrace : trace w1 = trace w ++ [GetCheaperAlternative x]).
  { subst w1. unfold triggerAlternativeNudge. rewrite Hitems. reflexivity. }
  split.
  - intros Hcheapest. subst w2. unfold handleNudgeAccept, callsSince.
    rewrite Hdata, Hitems1. cbn. rewrite Hcheapest. cbn.
    rewrite Htrace, <- !app_assoc, skipn_length_app. cbn.
    split; reflexivity.
  - intros Hcheapest Hname Hprice. subst w2.
    unfold handleNudgeAccept, callsSince.
    rewrite Hdata, Hitems1. cbn. rewrite Hcheapest. cbn.
    apply String.eqb_neq in Hname. rewrite Hname.
    apply Z.eqb_neq in Hprice. rewrite Hprice. cbn.
    rewrite Htrace, <- !app_assoc, skipn_length_app. cbn.
    eexists. repeat split.
Qed.

Lemma trigger_then_accept_alternative_witness :
  let w := Sample.page [Sample.lineX; Sample.lineA] (Some Sample.alice) in
  notification
    (handleNudgeAccept "alternative"
       (triggerAlternativeNudge (Fixture.offering Fixture.itself) w))
  = Some (success, MsgSavedByRemoving 15000 "Xenon lamp") /\
  exists y,
    filter isCartCall
      (callsSince w
         (handleNudgeAccept "alternative"
            (triggerAlternativeNudge (Fixture.offering Fixture.yttrium) w)))
    = [RemoveItem "x"; AddItem y] /\
    title y = "Yttrium lamp" /\ price y = 3000 /\ quantity y = 3 /\
    notification
      (handleNudgeAccept "alternative"
         (triggerAlternativeNudge (Fixture.offering Fixture.yttrium) w))
    = Some (success, MsgSwitched "Yttrium lamp" (Some 2000)).
Proof.
  split.
  - exact (proj2 (proj1 (trigger_then_accept_alternative
                           (Fixture.offering Fixture.itself)
                           (Sample.page [Sample.lineX; Sample.lineA] (Some Sample.alice))
                           Sample.lineX [Sample.lineA] eq_refl)
                        eq_refl)).
  - refine (proj2 (trigger_then_accept_alternative
                     (Fixture.offering Fixture.yttrium)
                     (Sample.page [Sample.lineX; Sample.lineA] (Some Sample.alice))
                     Sample.lineX [Sample.lineA] eq_refl)
                  eq_refl _ _); discriminate.
Defined.

(** ** The rendered nudge *)

Lemma processCheckout_nudge (snap w : World) :
  currentNudge (world_of (processCheckout snap w)) = None \/
  currentNudge (world_of (processCheckout snap w)) = currentNudge w.
Proof.
  unfold processCheckout; cbn.
  destruct (parseOrders (modshop_orders w)) as [stored|]; [|right; reflexivity].
  destruct (storageWritable w); [left | right]; reflexivity.
Qed.

Lemma visibleNudge_none (w : World) : currentNudge w = None -> visibleNudge w.
Proof. intros Hnone n Hn. congruence. Qed.

Lemma invoke_visible (svc : NudgeService) (i : Invocation) (w : World) :
  visibleNudge w -> visibleNudge (invoke svc i w).
Proof.
  intros Hvisible.
  destruct i as [| t | t | | | | | its | |]; cbn [invoke].
  - unfold handleCheckout.
    destruct (user w) as [u|]; [|exact Hvisible].
    destruct (canProceedWithCheckout w); cbn [negb].
    + destruct (processCheckout_nudge w w) as [Hn | Hn].
      * apply visibleNudge_none; exact Hn.
      * intros n. rewrite Hn. apply Hvisible.
    + destruct (is_none (type (triggerNudge svc (items w) (total (items w)))))
        eqn:Hnone; cbn [negb].
      * destruct (processCheckout_nudge w
                    (w |> call (TriggerNudge (items w) (total (items w)))))
          as [Hn | Hn].
        -- apply visibleNudge_none; exact Hn.
        -- intros n. rewrite Hn. apply Hvisible.
      * intros n Hn. cbn in Hn. injection Hn as <-. exact Hnone.
  - apply visibleNudge_none. apply handleNudgeAccept_keeps.
  - apply visibleNudge_none. unfold handleNudgeReject.
    destruct (String.eqb t "gentle" || String.eqb t "block"); [|reflexivity].
    match goal with
    | |- currentNudge (world_of (processCheckout ?s ?v)) = None =>
        destruct (processCheckout_nudge s v) as [Hn | Hn]; rewrite Hn; reflexivity
    end.
  - apply visibleNudge_none. reflexivity.
  - intros n Hn. cbn in Hn. injection Hn as <-. reflexivity.
  - unfold triggerAlternativeNudge. destruct (items w) as [|x rest]; [exact Hvisible|].
    intros n Hn. cbn in Hn. injection Hn as <-. reflexivity.
  - intros n Hn. cbn in Hn. injection Hn as <-. reflexivity.
  - exact Hvisible.
  - exact Hvisible.
  - unfold checkoutAnimationTimeout. destruct (checkoutAnimating w); exact Hvisible.
Qed.

(** X13.  The page never holds a nudge it does not render.  Starting from
    a page whose current nudge, if any, is not of type [none], after any
    sequence of handler invocations, cart changes and timeouts, whatever the
    nudge service answers, a nudge component is rendered exactly when there
    is a current nudge. *)
Theorem open_nudge_is_rendered
    (svc : NudgeService) (steps : list Invocation) (w : World) :
  visibleNudge w ->
  let w' := invokeAll svc steps w in
  visibleNudge w' /\
  (nudgeView w' = None <-> currentNudge w' = None).
Proof.
  intros Hvisible w'.
  assert (Hw' : visibleNudge w').
  { subst w'. revert w Hvisible.
    induction steps as [|i steps IH]; intros w Hvisible; [exact Hvisible|].
    cbn [invokeAll]. apply IH. apply invoke_visible. exact Hvisible. }
  split; [exact Hw'|].
  unfold nudgeView, nudgeTypeOf.
  destruct (currentNudge w') as [n|] eqn:Hn; cbn; [|tauto].
  specialize (Hw' n Hn).
  destruct (type n); cbn in *; split; intros H; discriminate.
Qed.

Lemma open_nudge_is_rendered_witness :
  let w' := invokeAll Sample.strict
              [GentleClicked; Reject "alternative"; Checkout; CartDelivered []]
              (Sample.page [Sample.lineA] (Some Sample.alice)) in
  visibleNudge w' /\
  (nudgeView w' = None <-> currentNudge w' = None).
Proof.
  apply (open_nudge_is_rendered Sample.strict
           [GentleClicked; Reject "alternative"; Checkout; CartDelivered []]
           (Sample.page [Sample.lineA] (Some Sample.alice))).
  intros n Hn. discriminate Hn.
Defined.

(** X14.  Among the callbacks of the rendered nudge, only the rejection
    of a gentle nudge can write to order storage: every other callback that
    is wired returns and leaves storage as it was.  A block nudge has neither
    an accept nor a reject callback. *)
Theorem nudge_callbacks_commit_only_on_gentle_reject (w : World) :
  (nudgeTypeOf w = Some block ->
   nudgeEvent OnAccept w = None /\ nudgeEvent OnReject w = None) /\
  (forall e o,
      nudgeEvent e w = Some o ->
      (e = OnReject /\ nudgeTypeOf w = Some gentle) \/
      (returned o = true /\ modshop_orders (world_of o) = modshop_orders w)).
Proof.
  split.
  - intros Hblock. unfold nudgeEvent. rewrite Hblock. split; reflexivity.
  - intros e o. unfold nudgeEvent.
    destruct (nudgeTypeOf w) as [[| | |]|]; destruct e; intros Ho;
      try discriminate; injection Ho as <-;
      try (left; split; reflexivity);
      right; cbn [returned world_of]; split; try reflexivity;
      apply handleNudgeAccept_keeps.
Qed.

Lemma nudge_callbacks_commit_only_on_gentle_reject_witness :
  let w := triggerBlockNudge (Sample.page [Sample.lineA] (Some Sample.alice)) in
  (nudgeEvent OnAccept w = None /\ nudgeEvent OnReject w = None) /\
  modshop_orders (handleBlockComplete w) = modshop_orders w.
Proof.
  split.
  - exact (proj1 (nudge_callbacks_commit_only_on_gentle_reject
                    (triggerBlockNudge (Sample.page [Sample.lineA] (Some Sample.alice))))
             eq_refl).
  - destruct (proj2 (nudge_callbacks_commit_only_on_gentle_reject
                       (triggerBlockNudge (Sample.page [Sample.lineA] (Some Sample.alice))))
                OnComplete _ eq_refl) as [[Habs _] | [_ Hsame]].
    + discriminate Habs.
    + exact Hsame.
Defined.

(** X15.  The countdown given to the block component is never 0: a block
    nudge whose payload has no duration, or the duration 0, is rendered with
    60 seconds, and the nudge built by [triggerBlockNudge] with 15. *)
Theorem block_view_duration (w : World) :
  nudgeView (triggerBlockNudge w) = Some (PurchaseBlockNudge 15) /\
  (forall seconds, nudgeView w = Some (PurchaseBlockNudge seconds) -> seconds <> 0) /\
  (nudgeTypeOf w = Some block ->
   payload duration w = None \/ payload duration w = Some 0 ->
   nudgeView w = Some (PurchaseBlockNudge 60)).
Proof.
  split; [reflexivity | split].
  - intros seconds. unfold nudgeView.
    destruct (nudgeTypeOf w) as [[| | |]|]; try discriminate.
    intros Hview. injection Hview as <-.
    unfold or_num, Js.truthy_num.
    destruct (payload duration w) as [d|]; [|discriminate].
    destruct (Z.eqb_spec d 0); [discriminate | assumption].
  - intros Hblock Hmissing. unfold nudgeView. rewrite Hblock.
    destruct Hmissing as [-> | ->]; reflexivity.
Qed.

Lemma block_view_duration_witness :
  let w := setCurrentNudge
             (Some {| type := block; data := None |})
             (Sample.page [Sample.lineA] (Some Sample.alice)) in
  nudgeView w = Some (PurchaseBlockNudge 60) /\ 60 <> 0.
Proof.
  pose proof (block_view_duration
                (setCurrentNudge (Some {| type := block; data := None |})
                   (Sample.page [Sample.lineA] (Some Sample.alice)))) as H.
  destruct H as (_ & Hnonzero & Hfallback).
  pose proof (Hfallback eq_refl (or_introl eq_refl)) as Hview.
  split; [exact Hview | exact (Hnonzero 60 Hview)].
Defined.

(** ** Order storage over the life of the page *)

Lemma buildOrder_consistent (snap w : World) : consistent (buildOrder snap w).
Proof. reflexivity. Qed.

Lemma processCheckout_orders (snap w : World) :
  exists added,
    persistedOrders (world_of (processCheckout snap w))
    = persistedOrders w ++ added /\
    Forall consistent added /\
    (List.length added <= 1)%nat.
Proof.
  unfold processCheckout, persistedOrders; cbn.
  destruct (parseOrders (modshop_orders w)) as [stored|] eqn:Hparse; cbn.
  - destruct (storageWritable w); cbn.
    + eexists; split; [reflexivity|].
      split; [repeat constructor | cbn; lia].
    + exists []. rewrite Hparse, app_nil_r. repeat constructor.
  - exists []. rewrite Hparse. repeat constructor.
Qed.

Lemma invoke_orders (svc : NudgeService) (i : Invocation) (w : World) :
  exists added,
    persistedOrders (invoke svc i w) = persistedOrders w ++ added /\
    Forall consistent added /\
    (List.length added <= 1)%nat.
Proof.
  assert (Hsame : forall w', modshop_orders w' = modshop_orders w ->
                             exists added,
                               persistedOrders w' = persistedOrders w ++ added /\
                               Forall consistent added /\
                               (List.length added <= 1)%nat).
  { intros w' Heq. exists []. unfold persistedOrders. rewrite Heq, app_nil_r.
    repeat constructor. }
  destruct i as [| t | t | | | | | its | |]; cbn [invoke].
  - unfold handleCheckout.
    destruct (user w) as [u|]; [|apply Hsame; reflexivity].
    destruct (canProceedWithCheckout w); cbn [negb].
    + apply processCheckout_orders.
    + destruct (is_none (type (triggerNudge svc (items w) (total (items w)))));
        cbn [negb]; [|apply Hsame; reflexivity].
      apply (processCheckout_orders w
               (w |> call (TriggerNudge (items w) (total (items w))))).
  - apply Hsame. apply handleNudgeAccept_keeps.
  - unfold handleNudgeReject.
    destruct (String.eqb t "gentle" || String.eqb t "block");
      [|apply Hsame; reflexivity].
    apply (processCheckout_orders w
             (w |> call (RecordNudgeInteraction t false)
                |> setCurrentNudge None
                |> setCanProceedWithCheckout true)).
  - apply Hsame. reflexivity.
  - apply Hsame. reflexivity.
  - apply Hsame. unfold triggerAlternativeNudge.
    destruct (items w); reflexivity.
  - apply Hsame. reflexivity.
  - apply Hsame. reflexivity.
  - apply Hsame. reflexivity.
  - apply Hsame. unfold checkoutAnimationTimeout.
    destruct (checkoutAnimating w); reflexivity.
Qed.

(** X16.  Order storage is append-only.  Over any sequence of handler
    invocations, cart changes and timeouts, whatever the nudge service
    answers, the orders that can be read back are those of before followed by
    new ones, at most one per step, and each new order has for total the
    total of the items it lists. *)
Theorem orders_only_grow
    (svc : NudgeService) (steps : list Invocation) (w : World) :
  exists added,
    persistedOrders (invokeAll svc steps w) = persistedOrders w ++ added /\
    Forall consistent added /\
    (List.length added <= List.length steps)%nat.
Proof.
  revert w. induction steps as [|i steps IH]; intros w; cbn [invokeAll].
  - exists []. rewrite app_nil_r. repeat constructor.
  - destruct (invoke_orders svc i w) as (first & Hfirst & Hcons1 & Hlen1).
    destruct (IH (invoke svc i w)) as (others & Hothers & Hcons2 & Hlen2).
    exists (first ++ others). rewrite Hothers, Hfirst, app_assoc.
    split; [reflexivity|]. split.
    + apply Forall_app. split; assumption.
    + rewrite length_app. cbn [List.length]. lia.
Qed.




(** ** The gate *)

Lemma invoke_gate (svc : NudgeService) (i : Invocation) (w : World) :
  alwaysNudges svc ->
  canProceedWithCheckout w = false ->
  overrides i = false ->
  modshop_orders (invoke svc i w) = modshop_orders w /\
  canProceedWithCheckout (invoke svc i w) = false.
Proof.
  intros Hnudges Hflag Hplain.
  destruct i as [| t | t | | | | | its | |]; cbn [invoke]; cbn in Hplain.
  - unfold handleCheckout.
    destruct (user w) as [u|]; [|split; [reflexivity | exact Hflag]].
    rewrite Hflag, Hnudges. cbn. split; [reflexivity | exact Hflag].
  - destruct (handleNudgeAccept_keeps t w) as (_ & Hstored & Hsame).
    rewrite Hstored, Hsame. split; [reflexivity | exact Hflag].
  - unfold handleNudgeReject. rewrite Hplain. cbn.
    split; [reflexivity | exact Hflag].
  - discriminate.
  - split; [reflexivity | exact Hflag].
  - unfold triggerAlternativeNudge.
    destruct (items w); split; first [reflexivity | exact Hflag].
  - split; [reflexivity | exact Hflag].
  - split; [reflexivity | exact Hflag].
  - split; [reflexivity | exact Hflag].
  - unfold checkoutAnimationTimeout.
    destruct (checkoutAnimating w); split; first [reflexivity | exact Hflag].
Qed.

(** X18.  With a nudge service that nudges on every evaluation and the
    override not set, nothing is ever stored as long as no gentle or block
    nudge is rejected and no block nudge completes: checkout requests,
    acceptances, rejections of other nudges, the three nudge buttons, cart
    changes and timeouts all leave order storage as it was and the override
    unset. *)
Theorem no_commit_without_override
    (svc : NudgeService) (steps : list Invocation) (w : World) :
  alwaysNudges svc ->
  canProceedWithCheckout w = false ->
  forallb (fun i => negb (overrides i)) steps = true ->
  let w' := invokeAll svc steps w in
  modshop_orders w' = modshop_orders w /\
  canProceedWithCheckout w' = false.
Proof.
  intros Hnudges. revert w.
  induction steps as [|i steps IH]; intros w Hflag Hplain; cbn [invokeAll].
  - split; [reflexivity | exact Hflag].
  - cbn [forallb] in Hplain. apply andb_prop in Hplain.
    destruct Hplain as [Hi Hrest]. apply negb_true_iff in Hi.
    destruct (invoke_gate svc i w Hnudges Hflag Hi) as [Hstored Hflag'].
    destruct (IH (invoke svc i w) Hflag' Hrest) as [Hstored' Hflag''].
    split; [congruence | exact Hflag''].
Qed.

Lemma no_commit_without_override_witness :
  let w := Sample.page [Sample.lineA] (Some Sample.alice) in
  let w' := invokeAll Sample.strict
              [Checkout; Accept "block"; AlternativeClicked; Reject "alternative";
               CartDelivered [Sample.lineB]; Checkout] w in
  modshop_orders w' = modshop_orders w /\
  canProceedWithCheckout w' = false.
Proof.
  apply (no_commit_without_override Sample.strict
           [Checkout; Accept "block"; AlternativeClicked; Reject "alternative";
            CartDelivered [Sample.lineB]; Checkout]
           (Sample.page [Sample.lineA] (Some Sample.alice))).
  - intros its tot. reflexivity.
  - reflexivity.
  - reflexivity.
Defined.

(** X19.  The override is used up by the commit it lets through: when a
    logged-in user checks out with [canProceedWithCheckout] set and the order
    is stored, the next checkout request consults the nudge service again,
    exactly once, with the cart as it is then. *)
Theorem override_is_consumed_by_commit
    (svc : NudgeService) (w : World) (u : User) (stored : list Order) :
  user w = Some u ->
  canProceedWithCheckout w = true ->
  parseOrders (modshop_orders w) = Some stored ->
  storageWritable w = true ->
  let w1 := world_of (handleCheckout svc w) in
  canProceedWithCheckout w1 = false /\
  nudgeEvaluations w1 = nudgeEvaluations w /\
  nudgeEvaluations (world_of (handleCheckout svc w1)) = S (nudgeEvaluations w) /\
  filter isTriggerNudge (callsSince w1 (world_of (handleCheckout svc w1)))
  = [TriggerNudge [] 0].
Proof.
  intros Huser Hflag Hparse Hwrite w1.
  assert (Hw1 : user w1 = Some u /\ canProceedWithCheckout w1 = false /\
                items w1 = [] /\
                trace w1 = trace w ++ [SetItem (stored ++ [buildOrder w w]); ClearCart]).
  { subst w1. unfold handleCheckout. rewrite Huser, Hflag. cbn [negb].
    unfold processCheckout; cbn. rewrite Hparse, Hwrite; cbn.
    rewrite <- app_assoc. repeat split. exact Huser. }
  destruct Hw1 as (Huser1 & Hflag1 & Hitems1 & Htrace1).
  clearbody w1.
  assert (Hcount1 : nudgeEvaluations w1 = nudgeEvaluations w).
  { unfold nudgeEvaluations. rewrite Htrace1, filter_app. cbn.
    rewrite app_nil_r. reflexivity. }
  split; [exact Hflag1 | split; [exact Hcount1 |]].
  rewrite <- Hcount1.
  unfold handleCheckout. rewrite Huser1, Hflag1, Hitems1. cbn [negb].
  change (total []) with 0.
  destruct (is_none (type (triggerNudge svc [] 0))); cbn [negb].
  - rewrite processCheckout_no_evaluation.
    unfold callsSince, processCheckout, nudgeEvaluations; cbn.
    destruct (parseOrders (modshop_orders w1)) as [stored1|];
      [destruct (storageWritable w1) |]; cbn;
      rewrite <- ?app_assoc, skipn_length_app, filter_app, length_app; cbn;
      split; first [lia | reflexivity].
  - unfold callsSince, nudgeEvaluations; cbn.
    rewrite skipn_length_app, filter_app, length_app; cbn.
    split; first [lia | reflexivity].
Qed.

Lemma override_is_consumed_by_commit_witness :
  let w := handleBlockComplete (Sample.page [Sample.lineA] (Some Sample.alice)) in
  let w1 := world_of (handleCheckout Sample.strict w) in
  canProceedWithCheckout w1 = false /\
  nudgeEvaluations w1 = nudgeEvaluations w /\
  nudgeEvaluations (world_of (handleCheckout Sample.strict w1))
  = S (nudgeEvaluations w) /\
  filter isTriggerNudge (callsSince w1 (world_of (handleCheckout Sample.strict w1)))
  = [TriggerNudge [] 0].
Proof.
  exact (override_is_consumed_by_commit Sample.strict
           (handleBlockComplete (Sample.page [Sample.lineA] (Some Sample.alice)))
           Sample.alice [] eq_refl eq_refl eq_refl eq_refl).
Defined.

(** ** Savings and the total *)



